(** * Marketing dashboard: the spreadsheet normalisation pipeline

    A shallow embedding of the data pipeline of the React component
    [MarketingDashboard]: the scalar normalisers [cleanNumber] and
    [formatDate], the row mapper and date sort of [processData], and the
    upload handler [handleFileUpload] with its component state.  The
    repository carries two versions of the component; the older one
    ([src/MarketingDashboard.js]) is embedded in [Module Legacy].

    JavaScript values are modelled as a small tagged union, numbers as
    IEEE-754 binary64 values ([spec_float] of the Standard Library), strings
    as byte strings holding the UTF-8 encoding of the text, objects used as
    records as finite maps from property names to values. *)

From Stdlib Require Import ZArith Lia Bool Ascii Sorting.Sorted.
From Stdlib Require Import Floats.SpecFloat Floats.PrimFloat Floats.FloatOps.
From stdpp Require Import base option strings list gmap.

Local Open Scope string_scope.
Local Open Scope Z_scope.

(** ** JavaScript numbers and values *)

Module JS.

(** A JS number is a binary64 value.  Finite non-zero values are kept in
    canonical form: mantissa below [2^53], exponent between [-1074] and
    [971], mantissa at least [2^52] unless the exponent is [-1074]. *)
Abbreviation number := spec_float.

Definition pos_zero : number := S754_zero false.
Definition NaN : number := S754_nan.
Definition Infinity : number := S754_infinity false.

Definition is_nan (x : number) : bool :=
  match x with S754_nan => true | _ => false end.

(** [Number.isFinite] *)
Definition is_finite (x : number) : bool :=
  match x with
  | S754_zero _ | S754_finite _ _ _ => true
  | S754_infinity _ | S754_nan => false
  end.

Inductive value :=
  | VUndefined
  | VNull
  | VBool (b : bool)
  | VNum (n : number)
  | VStr (s : string).

#[global] Instance number_eq_dec : EqDecision number.
Proof. solve_decision. Defined.

#[global] Instance value_eq_dec : EqDecision value.
Proof. solve_decision. Defined.

(** [ToBoolean]: the falsy values are [undefined], [null], [false], [+0],
    [-0], [NaN] and the empty string. *)
Definition truthy (v : value) : bool :=
  match v with
  | VUndefined | VNull => false
  | VBool b => b
  | VNum (S754_zero _) | VNum S754_nan => false
  | VNum _ => true
  | VStr EmptyString => false
  | VStr _ => true
  end.

Definition falsy (v : value) : bool := negb (truthy v).

(** [a || b] *)
Definition or_else (a b : value) : value := if truthy a then a else b.

(** *** Rounding an exact rational to binary64

    [binade n d] is [floor (log2 (n / d))] for positive [n] and [d]. *)
Definition binade (n d : Z) : Z :=
  let e0 := Z.log2 n - Z.log2 d in
  let below :=
    if 0 <=? e0 then n <? d * 2 ^ e0 else n * 2 ^ (- e0) <? d in
  if below then e0 - 1 else e0.

(** Every value at or above [2^1024 - 2^970] rounds to infinity. *)
Definition overflow_threshold : Z := 2 ^ 1024 - 2 ^ 970.

(** [round_binary64 s n d] is the Number value of the rational [n / d]
    ([0 <= n], [0 < d]) with sign [s]: round to nearest, ties to even. *)
Definition round_binary64 (s : bool) (n d : Z) : number :=
  if n <=? 0 then S754_zero s
  else if overflow_threshold * d <=? n then S754_infinity s
  else
    let e := Z.max (binade n d - 52) (-1074) in
    let num := if 0 <=? e then n else n * 2 ^ (- e) in
    let den := if 0 <=? e then d * 2 ^ e else d in
    let q := num / den in
    let r := num mod den in
    let m :=
      match 2 * r ?= den with
      | Lt => q
      | Eq => if Z.even q then q else q + 1
      | Gt => q + 1
      end in
    match m with
    | Zpos p =>
        if m =? 2 ^ 53 then S754_finite s (Z.to_pos (2 ^ 52)) (e + 1)
        else S754_finite s p e
    | _ => S754_zero s
    end.

(** The value [m * 10^x] of a decimal numeral. *)
Definition of_decimal (s : bool) (m x : Z) : number :=
  if 0 <=? x then round_binary64 s (m * 10 ^ x) 1
  else round_binary64 s m (10 ^ (- x)).

(** *** Characters and digit strings *)

Definition is_digit (c : ascii) : bool :=
  let n := Z.of_N (Ascii.N_of_ascii c) in (48 <=? n) && (n <=? 57).

Definition digit_val (c : ascii) : Z := Z.of_N (Ascii.N_of_ascii c) - 48.

(** The ASCII members of [StrWhiteSpaceChar]: TAB, LF, VT, FF, CR, SP. *)
Definition is_space (c : ascii) : bool :=
  let n := Z.of_N (Ascii.N_of_ascii c) in
  ((9 <=? n) && (n <=? 13)) || (n =? 32).

Fixpoint skip_spaces (s : string) : string :=
  match s with
  | String c s' => if is_space c then skip_spaces s' else s
  | EmptyString => s
  end.

(** [take_digits acc k s] reads the longest run of decimal digits at the
    head of [s]: the number read so far (starting from [acc]), the count
    of digits read (starting from [k]) and the rest of the text. *)
Fixpoint take_digits (acc : Z) (k : nat) (s : string) : Z * nat * string :=
  match s with
  | String c s' =>
      if is_digit c then take_digits (10 * acc + digit_val c) (S k) s'
      else (acc, k, s)
  | EmptyString => (acc, k, s)
  end.

Fixpoint starts_with (p s : string) : bool :=
  match p, s with
  | EmptyString, _ => true
  | String a p', String b s' => Ascii.eqb a b && starts_with p' s'
  | String _ _, EmptyString => false
  end.

(** An optional sign: whether it is [-], and the text after it. *)
Definition take_sign (s : string) : bool * string :=
  match s with
  | String c t =>
      if Ascii.eqb c "-" then (true, t)
      else if Ascii.eqb c "+" then (false, t)
      else (false, s)
  | EmptyString => (false, s)
  end.

(** [ExponentPart]: [e] or [E], an optional sign, at least one digit;
    the exponent is 0 when the text does not continue with one. *)
Definition take_exponent (s : string) : Z :=
  match s with
  | String c s1 =>
      if Ascii.eqb c "e" || Ascii.eqb c "E" then
        let '(neg, s2) := take_sign s1 in
        let '(x, k, _) := take_digits 0 0 s2 in
        match k with
        | O => 0
        | S _ => if neg : bool then - x else x
        end
      else 0
  | EmptyString => 0
  end.

(** The digits after a decimal point, read on from the integer part
    [ip]: the number with the fraction digits appended, their count and
    the rest of the text. *)
Definition take_fraction (ip : Z) (s : string) : Z * nat * string :=
  match s with
  | String c t => if Ascii.eqb c "." then take_digits ip 0 t else (ip, O, s)
  | EmptyString => (ip, O, s)
  end.

(** *** [parseFloat]

    The longest prefix of the text (after leading white space) that is a
    [StrDecimalLiteral] is converted; [NaN] when there is none.  The
    exact decimal value is rounded once, as the engines do (the standard
    also allows an engine to drop digits after the twentieth).  White
    space outside ASCII is not skipped: the component calls [parseFloat]
    on text of digits, dots and dashes only. *)
Definition parseFloat (s : string) : number :=
  let '(neg, s1) := take_sign (skip_spaces s) in
  if starts_with "Infinity" s1 then S754_infinity neg
  else
    let '(ip, ki, r1) := take_digits 0 0 s1 in
    let '(m, kf, r2) := take_fraction ip r1 in
    match ki, kf with
    | O, O => NaN
    | _, _ => of_decimal neg m (take_exponent r2 - Z.of_nat kf)
    end.

End JS.

Import JS.

(** ** Scalar normalisers *)

(** [value.replace(/[^\d.-]/g, '')] (in the older file [/[^0-9.-]/g], the
    same class): every character other than an ASCII digit, [.] and [-]
    is removed.  On the UTF-8 bytes of the text this removes every byte of
    a non-ASCII character, as the regular expression removes the
    character. *)
Definition kept (c : ascii) : bool :=
  is_digit c || Ascii.eqb c "." || Ascii.eqb c "-".

Fixpoint strip (s : string) : string :=
  match s with
  | String c s' => if kept c then String c (strip s') else strip s'
  | EmptyString => EmptyString
  end.

(** The currency placeholder compared against in the guard.  The newer
    file holds the text in a damaged encoding (the UTF-8 bytes of the won
    sign read as Windows-1252); the older file holds the won sign. *)
Definition won_dash_damaged : string :=
  String (ascii_of_nat 195) (String (ascii_of_nat 162)
  (String (ascii_of_nat 226) (String (ascii_of_nat 128) (String (ascii_of_nat 154)
  (String (ascii_of_nat 194) (String (ascii_of_nat 169) "-")))))).

Definition won_dash : string :=
  String (ascii_of_nat 226) (String (ascii_of_nat 130) (String (ascii_of_nat 169) "-")).

Definition num (z : Z) : value := VNum (of_decimal false z 0).

(** [cleanNumber], with the placeholder literal of the guard as a
    parameter:
<<
    if (!value || value === '-' || value === PLACEHOLDER) return 0;
    if (typeof value === 'number') return value;
    if (typeof value === 'string') {
      const cleaned = value.toString().replace(/[^\d.-]/g, '');
      return parseFloat(cleaned) || 0;
    }
    return 0;
>> *)
Definition cleanNumber_with (placeholder : string) (v : value) : value :=
  if falsy v || bool_decide (v = VStr "-") || bool_decide (v = VStr placeholder)
  then num 0
  else
    match v with
    | VNum _ => v
    | VStr s =>
        let cleaned := strip s in
        or_else (VNum (parseFloat cleaned)) (num 0)
    | _ => num 0
    end.

Definition cleanNumber : value -> value := cleanNumber_with won_dash_damaged.

(** ** Dates

    A [Date] object is modelled by its time value: milliseconds since the
    epoch, or [None] for an invalid date (time value [NaN]). *)

Module JSDate.

Inductive exn :=
  | TypeError (message : string)
  | RangeError (message : string)
  | Error (message : string).

Definition message (e : exn) : string :=
  match e with TypeError m | RangeError m | Error m => m end.

Inductive result (A : Type) :=
  | Ok (a : A)
  | Throw (e : exn).
Arguments Ok {A} a.
Arguments Throw {A} e.

Definition msPerDay : Z := 86400000.
Definition max_time : Z := 8640000000000000.

(** [TimeClip] on an integral time. *)
Definition time_clip (t : Z) : option Z :=
  if Z.abs t <=? max_time then Some t else None.

(** [ToIntegerOrInfinity] of a finite number: truncation towards zero. *)
Definition trunc (x : number) : option Z :=
  match x with
  | S754_zero _ => Some 0
  | S754_finite s m e =>
      let a := if 0 <=? e then Zpos m * 2 ^ e else Zpos m / 2 ^ (- e) in
      Some (if s then - a else a)
  | S754_infinity _ | S754_nan => None
  end.

(** Year, month (1..12) and day of month of a day number counted from
    the epoch, in the proleptic Gregorian calendar. *)
Definition civil_from_days (z : Z) : Z * Z * Z :=
  let z := z + 719468 in
  let era := z / 146097 in
  let doe := z - era * 146097 in
  let yoe := (doe - doe / 1460 + doe / 36524 - doe / 146096) / 365 in
  let doy := doe - (365 * yoe + yoe / 4 - yoe / 100) in
  let mp := (5 * doy + 2) / 153 in
  let d := doy - (153 * mp + 2) / 5 + 1 in
  let m := if mp <? 10 then mp + 3 else mp - 9 in
  let y := yoe + era * 400 + (if m <=? 2 then 1 else 0) in
  (y, m, d).

(** The inverse: the day number of a calendar date. *)
Definition days_from_civil (y m d : Z) : Z :=
  let y := if m <=? 2 then y - 1 else y in
  let era := y / 400 in
  let yoe := y - era * 400 in
  let doy := (153 * (if 2 <? m then m - 3 else m + 9) + 2) / 5 + d - 1 in
  let doe := yoe * 365 + yoe / 4 - yoe / 100 + doy in
  era * 146097 + doe - 719468.

Definition digit_char (d : Z) : ascii :=
  match d with
  | 0 => "0" | 1 => "1" | 2 => "2" | 3 => "3" | 4 => "4"
  | 5 => "5" | 6 => "6" | 7 => "7" | 8 => "8" | _ => "9"
  end%char.

(** The last [w] decimal digits of [n], most significant first. *)
Fixpoint pad (w : nat) (n : Z) : string :=
  match w with
  | O => ""
  | S w' => pad w' (n / 10) +:+ String (digit_char (n mod 10)) ""
  end.

(** Years 0 to 9999 are written with four digits, all others with a sign
    and six digits. *)
Definition iso_year (y : Z) : string :=
  if (0 <=? y) && (y <=? 9999) then pad 4 y
  else (if y <? 0 then "-" else "+") +:+ pad 6 (Z.abs y).

Definition isoDate (t : Z) : string :=
  let '(y, m, d) := civil_from_days (t / msPerDay) in
  iso_year y +:+ "-" +:+ pad 2 m +:+ "-" +:+ pad 2 d.

Definition isoTime (t : Z) : string :=
  let r := t mod msPerDay in
  pad 2 (r / 3600000) +:+ ":" +:+ pad 2 (r / 60000 mod 60) +:+ ":"
    +:+ pad 2 (r / 1000 mod 60) +:+ "." +:+ pad 3 (r mod 1000).

(** [Date.prototype.toISOString]: throws a [RangeError] on an invalid
    date. *)
Definition toISOString (d : option Z) : result string :=
  match d with
  | Some t => Ok (isoDate t +:+ "T" +:+ isoTime t +:+ "Z")
  | None => Throw (RangeError "Invalid time value")
  end.

(** [s.split(c)[0]]: the text before the first [c]. *)
Fixpoint before (c : ascii) (s : string) : string :=
  match s with
  | String a s' => if Ascii.eqb a c then "" else String a (before c s')
  | EmptyString => ""
  end.

(** [s.includes(c)] for a one-character needle. *)
Fixpoint includes (c : ascii) (s : string) : bool :=
  match s with
  | String a s' => Ascii.eqb a c || includes c s'
  | EmptyString => false
  end.

(** A parser for the date-only ISO form [YYYY-MM-DD], the one form of
    date-only text every engine reads the same way (as UTC midnight). *)
Definition days_in_month (y m : Z) : Z :=
  if m =? 2 then
    if ((y mod 4 =? 0) && negb (y mod 100 =? 0)) || (y mod 400 =? 0)
    then 29 else 28
  else if (m =? 4) || (m =? 6) || (m =? 9) || (m =? 11) then 30 else 31.

Definition parse_iso_date (s : string) : option Z :=
  let '(y, ky, r1) := take_digits 0 0 s in
  match r1 with
  | String "-" s2 =>
      let '(m, km, r2) := take_digits 0 0 s2 in
      match r2 with
      | String "-" s3 =>
          let '(d, kd, r3) := take_digits 0 0 s3 in
          if bool_decide ((ky, km, kd, r3) = (4, 2, 2, ""))%nat
             && (1 <=? m) && (m <=? 12) && (1 <=? d) && (d <=? days_in_month y m)
          then Some (days_from_civil y m d * msPerDay)
          else None
      | _ => None
      end
  | _ => None
  end.

End JSDate.

Import JSDate.

(** ** The engine boundary

    Library behaviour the component relies on and that the language
    standard leaves to the implementation (or that is too large to embed):
    [Date.parse] on text that is not in the ISO form, the text of a number,
    and the grouping number format of [Intl]. *)
Record engine := {
  Date_parse : string -> option Z;
  Number_toString : number -> string;
  Intl_format : value -> string;
}.

(** ** Rows, records and the component state *)

(** A raw row and a processed row are plain objects: finite maps from
    property names to values. *)
Abbreviation object := (gmap string value).

(** [o[k]]: a missing property reads as [undefined]. *)
Definition get (o : object) (k : string) : value := default VUndefined (o !! k).

(** [o[k] = v] *)
Definition assign (k : string) (v : value) (o : object) : object := <[k := v]> o.

(** Reading property [k] of [undefined] (an array element out of range)
    throws a [TypeError]; the message text is that of V8. *)
Definition undefined_read (k : string) : exn :=
  TypeError ("Cannot read properties of undefined (reading '" +:+ k +:+ "')").

Definition read_prop (o : option object) (k : string) : result value :=
  match o with
  | Some r => Ok (get r k)
  | None => Throw (undefined_read k)
  end.

Definition nl : string := String (ascii_of_nat 10) "".

(** [parts.join(sep)] *)
Fixpoint join (sep : string) (parts : list string) : string :=
  match parts with
  | [] => ""
  | [p] => p
  | p :: rest => p +:+ sep +:+ join sep rest
  end.

Record state := {
  data : list object;
  error : string;
  selectedRegion : string;
  debugInfo : string;
  isLoading : bool;
}.

(** The initial values of the [useState] hooks. *)
Definition initial_state : state :=
  {| data := []; error := ""; selectedRegion := "KR"; debugInfo := ""; isLoading := false |}.

(** A call of a state setter.  [setDebugInfo] is also called with an
    updater function, which React runs when it next renders; an updater
    may throw. *)
Inductive update :=
  | SetData (d : list object)
  | SetError (s : string)
  | SetDebugInfo (f : string -> result string)
  | SetIsLoading (b : bool).

Definition set_to (s : string) : string -> result string := fun _ => Ok s.
Definition append_line (s : string) : string -> result string :=
  fun prev => Ok (prev +:+ nl +:+ s).

Definition apply_update (u : update) (st : state) : result state :=
  match u with
  | SetData d =>
      Ok {| data := d; error := error st; selectedRegion := selectedRegion st;
            debugInfo := debugInfo st; isLoading := isLoading st |}
  | SetError s =>
      Ok {| data := data st; error := s; selectedRegion := selectedRegion st;
            debugInfo := debugInfo st; isLoading := isLoading st |}
  | SetDebugInfo f =>
      match f (debugInfo st) with
      | Ok s =>
          Ok {| data := data st; error := error st; selectedRegion := selectedRegion st;
                debugInfo := s; isLoading := isLoading st |}
      | Throw e => Throw e
      end
  | SetIsLoading b =>
      Ok {| data := data st; error := error st; selectedRegion := selectedRegion st;
            debugInfo := debugInfo st; isLoading := b |}
  end.

(** The state React renders after the setter calls of one handler run.
    [Throw e]: an updater threw while rendering; with no error boundary
    in the tree the component is unmounted. *)
Fixpoint render (us : list update) (st : state) : result state :=
  match us with
  | [] => Ok st
  | u :: us' =>
      match apply_update u st with
      | Ok st' => render us' st'
      | Throw e => Throw e
      end
  end.

(** What the file picker hands to the handler, with the outcome of the
    spreadsheet library on the file's content. *)
Inductive decoded :=
  | ReadError (msg : string)
      (* the file cannot be read or [XLSX.read] throws *)
  | SheetError (sheetName msg : string)
      (* [XLSX.utils.sheet_to_json] throws *)
  | Sheet (sheetName : string) (rows : list object).

Inductive upload :=
  | NoFile
  | File (name : string) (content : decoded).

(** [Array.prototype.sort] with a comparator.  The standard asks for a
    stable sort: when the comparator is a consistent order the result is
    the one stable sorted arrangement, whatever the algorithm.  A [NaN]
    from the comparator ([None] here) counts as [+0]; the order is then
    left to the implementation.  [Array_sort] is an insertion sort: it
    gives the order of every engine when the comparator is consistent,
    and need not give that of any engine otherwise; the order of V8 is
    [V8.ArrayTimSort], below. *)
Section Sort.
Context {A : Type} (comparefn : A -> A -> option Z).

(** [comparefn(a, b) > 0]: [a] goes after [b]. *)
Definition after (a b : A) : bool :=
  match comparefn a b with
  | Some v => 0 <? v
  | None => false
  end.

Fixpoint insert_sorted (x : A) (l : list A) : list A :=
  match l with
  | [] => [x]
  | y :: l' => if after x y then y :: insert_sorted x l' else x :: l
  end.

Fixpoint Array_sort (l : list A) : list A :=
  match l with
  | [] => []
  | x :: l' => insert_sorted x (Array_sort l')
  end.
End Sort.

(** When the comparator returns [NaN] for some pair the order is the
    engine's own.  V8 (Chrome, Node) sorts with TimSort; an array
    shorter than 64 is one run: [CountAndMakeRun] finds the run at the
    head of the array (and reverses it when it is strictly descending)
    and [BinaryInsertionSort] inserts the other elements one by one.
    Longer arrays are cut into several runs that are merged; that part
    is not embedded, and [ArrayTimSort] gives no result for them. *)
Module V8.
Section Sort.
Context {A : Type} (comparefn : A -> A -> option Z).








End Sort.
End V8.

(** ** The component *)

(** [REGIONS]: region code and label. *)
Definition REGIONS : list (string * string) :=
  [("KR", "Korea"); ("EN", "English"); ("CNTW", "China/Taiwan"); ("JP", "Japan")].

(** [ToString] of a value inside a template literal. *)
Definition to_string (E : engine) (v : value) : string :=
  match v with
  | VUndefined => "undefined"
  | VNull => "null"
  | VBool true => "true"
  | VBool false => "false"
  | VNum n => Number_toString E n
  | VStr s => s
  end.

(** [array.length] inside a template literal. *)
Definition length_text {A} (E : engine) (l : list A) : string :=
  Number_toString E (of_decimal false (Z.of_nat (length l)) 0).

(** [new Date(v)]: the time value of the constructed date. *)
Definition Date_new (E : engine) (v : value) : option Z :=
  match v with
  | VStr s => Date_parse E s ≫= time_clip
  | VNum x => trunc x ≫= time_clip
  | VBool b => Some (if b then 1 else 0)
  | VNull => Some 0
  | VUndefined => None
  end.

(** [formatDate]:
<<
    if (!date) return '';
    if (typeof date === 'string' && date.includes('-')) return date;
    try {
      const d = new Date(date);
      return d.toISOString().split('T')[0];
    } catch (e) { console.error(...); return date; }
>> *)
Definition formatDate (E : engine) (date : value) : value :=
  if falsy date then VStr ""
  else if match date with VStr s => includes "-" s | _ => false end then date
  else
    match toISOString (Date_new E date) with
    | Ok iso => VStr (before "T" iso)
    | Throw _ => date
    end.

(** The callback of [jsonData.map] in [processData]: the object literal,
    then the six assignments for every region of [REGIONS]. *)
Definition processRow (E : engine) (row : object) : object :=
  let processedRow : object :=
    assign "Total Wishlist Balance" (cleanNumber (get row "Total Wishlist Balance"))
    (assign "Gifts" (cleanNumber (get row "Gifts"))
    (assign "Purchase&Activations" (cleanNumber (get row "Purchase&Activations"))
    (assign "Wishlist Deletions" (cleanNumber (get row "Wishlist Deletions"))
    (assign "Wishlist Addition" (cleanNumber (get row "Wishlist Addition"))
    (assign "Steam Other page" (cleanNumber (get row "Steam Other page"))
    (assign "Steam Bot" (cleanNumber (get row "Steam Bot"))
    (assign "Steam Discount Page" (cleanNumber (get row "Steam Discount Page"))
    (assign "Steam 3rd Party" (cleanNumber (get row "Steam 3rd Party"))
    (assign "Steam Search" (cleanNumber (get row "Steam Search"))
    (assign "Steam Total Traffic" (cleanNumber (get row "Steam Total Traffic"))
    (assign "UA Issue" (or_else (get row "UA Issue") (VStr ""))
    (assign "Steam Issue" (or_else (get row "Steam Issue") (VStr ""))
    (assign "Game Issue" (or_else (get row "Game Issue") (VStr ""))
    (assign "Date" (formatDate E (get row "Date")) ∅)))))))))))))) in
  foldl
    (fun processedRow '(region, _) =>
       assign ("X " +:+ region +:+ " Click") (cleanNumber (get row ("X " +:+ region +:+ " Click")))
       (assign ("X " +:+ region +:+ " Impression") (cleanNumber (get row ("X " +:+ region +:+ " Impression")))
       (assign ("X " +:+ region +:+ " Cost") (cleanNumber (get row ("X " +:+ region +:+ " Cost")))
       (assign ("GA " +:+ region +:+ " Click") (cleanNumber (get row ("GA " +:+ region +:+ " Click")))
       (assign ("GA " +:+ region +:+ " Impression") (cleanNumber (get row ("GA " +:+ region +:+ " Impression")))
       (assign ("GA " +:+ region +:+ " Cost") (cleanNumber (get row ("GA " +:+ region +:+ " Cost")))
          processedRow))))))
    processedRow REGIONS.

(** The comparator of the sort: [(a, b) => new Date(a.Date) - new Date(b.Date)].
    Both operands are integral time values below [2^53] in magnitude (or
    [NaN]), so the sign of the binary64 difference is the sign of the
    exact difference, which is all that the sort reads. *)
Definition date_time (E : engine) (r : object) : option Z := Date_new E (get r "Date").

Definition by_date (E : engine) (a b : object) : option Z :=
  ta ← date_time E a; tb ← date_time E b; Some (ta - tb).

(** The series [processData] stores: the mapped rows sorted by date. *)
Definition buildSeries (E : engine) (jsonData : list object) : list object :=
  Array_sort (by_date E) (map (processRow E) jsonData).


(** [formatNumber] of the newer file. *)
Definition formatNumber (E : engine) (v : value) : string :=
  match v with
  | VUndefined | VNull => "0"
  | _ => Intl_format E v
  end.

(** The updater of the summary in [processData].  [firstRow] and
    [lastRow] are [undefined] when the series is empty: reading their
    [Date] throws. *)
Definition summary (E : engine) (region : string) (firstRow lastRow : option object)
    (prev : string) : result string :=
  match firstRow, lastRow with
  | Some first, Some last =>
      Ok (join nl
        [ prev;
          nl +:+ "Data Processing Complete:";
          "Date Range: " +:+ to_string E (get first "Date") +:+ " to "
            +:+ to_string E (get last "Date");
          nl +:+ "Latest Metrics:";
          "- Total Traffic: " +:+ formatNumber E (get last "Steam Total Traffic");
          "- Wishlist Balance: " +:+ formatNumber E (get last "Total Wishlist Balance");
          "- GA " +:+ region +:+ " Clicks: "
            +:+ formatNumber E (get last ("GA " +:+ region +:+ " Click"));
          "- X " +:+ region +:+ " Clicks: "
            +:+ formatNumber E (get last ("X " +:+ region +:+ " Click")) ])
  | _, _ => Throw (undefined_read "Date")
  end.

(** [processData]: the setter calls it makes, in order.  [region] is the
    value of [selectedRegion] in the closure. *)
Definition processData (E : engine) (region : string) (jsonData : list object) : list update :=
  let processedData := buildSeries E jsonData in
  let firstRow := processedData !! 0%nat in
  let lastRow := last processedData in
  [ SetDebugInfo (append_line ("Total rows found: " +:+ length_text E jsonData));
    SetDebugInfo (summary E region firstRow lastRow);
    SetData processedData ].

(** The [catch] block of [handleFileUpload]. *)
Definition on_error (prefix msg : string) : list update :=
  [ SetError (prefix +:+ msg); SetDebugInfo (append_line ("Error: " +:+ msg)) ].

(** [handleFileUpload], with [readExcelFile] inlined: the setter calls
    made for an upload, from the state [st] the handler closes over. *)
Definition handleFileUpload (E : engine) (st : state) (u : upload) : list update :=
  match u with
  | NoFile => [ SetDebugInfo (set_to "No file selected") ]
  | File name content =>
      [ SetIsLoading true; SetDebugInfo (set_to ("File selected: " +:+ name)) ]
      ++ match content with
         | ReadError msg => on_error "Error processing file: " msg
         | SheetError sheetName msg =>
             SetDebugInfo (append_line ("Sheet name: " +:+ sheetName))
             :: on_error "Error processing file: " msg
         | Sheet sheetName rows =>
             SetDebugInfo (append_line ("Sheet name: " +:+ sheetName))
             :: processData E (selectedRegion st) rows
         end
      ++ [ SetIsLoading false ]
  end.

(** The state after an upload. *)
Definition upload_file (E : engine) (u : upload) (st : state) : result state :=
  render (handleFileUpload E st u) st.

(** ** The older version of the component ([src/MarketingDashboard.js]) *)

Module Legacy.

Definition cleanNumber : value -> value := cleanNumber_with won_dash.

(** [formatNumber]: [new Intl.NumberFormat('en-US').format(num || 0)] *)
Definition formatNumber (E : engine) (v : value) : string :=
  Intl_format E (or_else v (num 0)).

(** The callback of [jsonData.map]: the date is copied as it is, and of
    the region columns only the two click columns of the region selected
    at the time of the upload are read. *)
Definition processRow (region : string) (row : object) : object :=
  assign ("X " +:+ region +:+ " Click") (cleanNumber (get row ("X " +:+ region +:+ " Click")))
  (assign ("GA " +:+ region +:+ " Click") (cleanNumber (get row ("GA " +:+ region +:+ " Click")))
  (assign "Total Wishlist Balance" (cleanNumber (get row "Total Wishlist Balance"))
  (assign "Gifts" (cleanNumber (get row "Gifts"))
  (assign "Purchase&Activations" (cleanNumber (get row "Purchase&Activations"))
  (assign "Wishlist Deletions" (cleanNumber (get row "Wishlist Deletions"))
  (assign "Wishlist Addition" (cleanNumber (get row "Wishlist Addition"))
  (assign "Steam Other page" (cleanNumber (get row "Steam Other page"))
  (assign "Steam Bot" (cleanNumber (get row "Steam Bot"))
  (assign "Steam Discount Page" (cleanNumber (get row "Steam Discount Page"))
  (assign "Steam 3rd Party" (cleanNumber (get row "Steam 3rd Party"))
  (assign "Steam Search" (cleanNumber (get row "Steam Search"))
  (assign "Steam Total Traffic" (cleanNumber (get row "Steam Total Traffic"))
  (assign "Date" (get row "Date") ∅))))))))))))).

(** The [try] block of [reader.onload] after the sheet is decoded; the
    reads of [jsonData[0].Date] and of the last row's [Date] are made in
    the block itself and throw into its [catch]. *)
Definition process (E : engine) (region sheetName : string) (rows : list object)
    : list update :=
  let jsonData := map (processRow region) rows in
  [ SetDebugInfo (append_line ("Sheet name: " +:+ sheetName));
    SetDebugInfo (append_line ("Total rows found: " +:+ length_text E rows)) ]
  ++ match read_prop (jsonData !! 0%nat) "Date", last jsonData with
     | Ok startDate, Some lastRow =>
         let endDate := get lastRow "Date" in
         [ SetDebugInfo (append_line ("Date range: " +:+ to_string E startDate
                                        +:+ " to " +:+ to_string E endDate));
           SetDebugInfo (append_line (nl +:+ "Latest metrics (" +:+ to_string E endDate +:+ "):"));
           SetDebugInfo (append_line ("- Total Traffic: "
             +:+ formatNumber E (get lastRow "Steam Total Traffic")));
           SetDebugInfo (append_line ("- Total Wishlist Balance: "
             +:+ formatNumber E (get lastRow "Total Wishlist Balance")));
           SetDebugInfo (append_line ("- GA " +:+ region +:+ " Clicks: "
             +:+ formatNumber E (get lastRow ("GA " +:+ region +:+ " Click"))));
           SetDebugInfo (append_line ("- X " +:+ region +:+ " Clicks: "
             +:+ formatNumber E (get lastRow ("X " +:+ region +:+ " Click"))));
           SetData jsonData;
           SetError "" ]
     | Throw e, _ => on_error "Error reading Excel file: " (message e)
     | Ok _, None => on_error "Error reading Excel file: " (message (undefined_read "Date"))
     end.

Definition handleFileUpload (E : engine) (st : state) (u : upload) : list update :=
  match u with
  | NoFile => [ SetDebugInfo (set_to "No file selected") ]
  | File name content =>
      SetDebugInfo (set_to ("File selected: " +:+ name))
      :: match content with
         | ReadError msg | SheetError _ msg => on_error "Error reading Excel file: " msg
         | Sheet sheetName rows => process E (selectedRegion st) sheetName rows
         end
  end.

Definition upload_file (E : engine) (u : upload) (st : state) : result state :=
  render (handleFileUpload E st u) st.

End Legacy.

(** An engine to run the component on: ISO dates only, and numbers shown
    by their integer part.  Used for examples, never in a general
    statement. *)
Fixpoint nat_digits (fuel : nat) (n : Z) : string :=
  match fuel with
  | O => ""
  | S fuel' =>
      if n <? 10 then String (digit_char n) ""
      else nat_digits fuel' (n / 10) +:+ String (digit_char (n mod 10)) ""
  end.

Definition integer_text (x : number) : string :=
  match trunc x with
  | Some t => (if t <? 0 then "-" else "") +:+ nat_digits 400 (Z.abs t)
  | None => match x with S754_infinity true => "-Infinity" | S754_infinity false => "Infinity" | _ => "NaN" end
  end.

Definition sample_engine : engine :=
  {| Date_parse := parse_iso_date;
     Number_toString := integer_text;
     Intl_format := fun v => match v with VNum x => integer_text x | _ => "NaN" end |}.

(** ** Charts, the axis domain and the region selector *)

(** [Math.min] and [Math.max] on numbers.  [Math.min] starts from
    [+Infinity]; a [NaN] argument makes the result [NaN]; [-0] counts as
    smaller than [+0].  [Math.max] is symmetric. *)
Definition is_neg_zero (x : number) : bool :=
  match x with S754_zero true => true | _ => false end.

Definition is_pos_zero (x : number) : bool :=
  match x with S754_zero false => true | _ => false end.

Definition min_step (lowest x : number) : number :=
  if is_nan lowest || is_nan x then NaN
  else if (is_neg_zero x && is_pos_zero lowest) || SFltb x lowest then x
  else lowest.

Definition max_step (highest x : number) : number :=
  if is_nan highest || is_nan x then NaN
  else if (is_pos_zero x && is_neg_zero highest) || SFltb highest x then x
  else highest.

Definition Math_min (xs : list number) : number := foldl min_step (S754_infinity false) xs.
Definition Math_max (xs : list number) : number := foldl max_step (S754_infinity true) xs.

(** The binary64 value of the literal [1.2]. *)
Definition one_point_two : number := S754_finite false 5404319552844595 (-52).

(** The first argument of [getYAxisDomain]: an array of keys or one key. *)
Inductive dataKeys :=
  | Keys (keys : list string)
  | Key (key : string).

(** The arguments spread into [Math.min] and [Math.max] are the values
    [cleanNumber(item[key]) || 0], which are numbers; [ToNumber] of a
    number is the number.  Other values do not occur there and are given
    [NaN]. *)
Definition as_number (v : value) : number :=
  match v with VNum n => n | _ => NaN end.

(** The values [getYAxisDomain] collects:
<<
    data.flatMap(item => {
      if (Array.isArray(dataKeys))
        return dataKeys.map(key => cleanNumber(item[key]) || 0);
      return [cleanNumber(item[dataKeys]) || 0];
    })
>> *)
Definition axis_values (data : list object) (dataKeys : dataKeys) : list value :=
  flat_map
    (fun item =>
       match dataKeys with
       | Keys keys => map (fun key => or_else (cleanNumber (get item key)) (num 0)) keys
       | Key key => [or_else (cleanNumber (get item key)) (num 0)]
       end)
    data.

(** [getYAxisDomain]:
<<
    if (!data.length) return [0, 100];
    let values = ...;
    const minValue = allowNegative ? Math.min(...values) : 0;
    const maxValue = Math.max(...values);
    return [minValue, maxValue * 1.2];
>> *)
Definition getYAxisDomain (data : list object) (dataKeys : dataKeys) (allowNegative : bool)
    : value * value :=
  match data with
  | [] => (num 0, num 100)
  | _ :: _ =>
      let values := map as_number (axis_values data dataKeys) in
      let minValue := if allowNegative then VNum (Math_min values) else num 0 in
      let maxValue := Math_max values in
      (minValue, VNum (SFmul prec emax maxValue one_point_two))
  end.

(** The [dataKey]s of the lines of the four charts, for the selected
    region. *)
Definition traffic_chart (region : string) : list string :=
  [ "Steam Total Traffic"; "GA " +:+ region +:+ " Click"; "X " +:+ region +:+ " Click" ].

Definition steam_sources_chart : list string :=
  [ "Steam Total Traffic"; "Steam Search"; "Steam 3rd Party";
    "Steam Discount Page"; "Steam Bot"; "Steam Other page" ].

Definition wishlist_chart : list string :=
  [ "Wishlist Addition"; "Wishlist Deletions"; "Purchase&Activations";
    "Gifts"; "Total Wishlist Balance" ].

Definition combined_chart (region : string) : list string :=
  [ "GA " +:+ region +:+ " Click"; "X " +:+ region +:+ " Click";
    "Steam Total Traffic"; "Total Wishlist Balance" ].

Definition charts (region : string) : list (list string) :=
  [ traffic_chart region; steam_sources_chart; wishlist_chart; combined_chart region ].

(** The Y-axis domains computed with [getYAxisDomain]: the traffic, the
    sources and the combined chart (the last with [allowNegative] false);
    the wishlist chart has a fixed domain. *)
Definition axis_domains (st : state) : list (value * value) :=
  [ getYAxisDomain (data st) (Keys (traffic_chart (selectedRegion st))) true;
    getYAxisDomain (data st) (Keys steam_sources_chart) true;
    getYAxisDomain (data st) (Keys (combined_chart (selectedRegion st))) false ].

(** [s.includes(needle)] *)
Fixpoint includes_text (needle s : string) : bool :=
  starts_with needle s
  || match s with
     | String _ s' => includes_text needle s'
     | EmptyString => false
     end.

(** The formatter [CustomTooltip] picks for an entry:
    [entry.dataKey.includes('Cost') ? formatCurrency : formatNumber]. *)
Inductive formatter := Currency | Plain.

Definition tooltip_formatter (dataKey : string) : formatter :=
  if includes_text "Cost" dataKey then Currency else Plain.

(** The [onChange] handler of the region selector:
    [setSelectedRegion(e.target.value)]. *)
Definition select_region (region : string) (st : state) : state :=
  {| data := data st; error := error st; selectedRegion := region;
     debugInfo := debugInfo st; isLoading := isLoading st |}.

(** Which blocks the main render method shows:
<<
    {error && <div>...{error}</div>}
    {isLoading && <div>Loading data...</div>}
    {data.length > 0 && <div>...charts...</div>}
    {!data.length && !isLoading && <div>Upload an Excel file ...</div>}
>>
    (the older component has the first and the third). *)
Record view := {
  error_banner : bool;
  loading_banner : bool;
  chart_section : bool;
  upload_prompt : bool;
}.

Definition main_view (st : state) : view :=
  {| error_banner := truthy (VStr (error st));
     loading_banner := isLoading st;
     chart_section := Nat.ltb 0 (length (data st));
     upload_prompt := Nat.eqb (length (data st)) 0 && negb (isLoading st) |}.

(** ** Vocabulary of the statements *)

(** [P] holds on [count] consecutive days from [first]. *)
Definition all_days (P : Z -> bool) (first : Z) (count : positive) : bool :=
  snd (Pos.iter (fun '(z, ok) => (z + 1, ok && P z)) (first, true) count).

(** Every character of the text satisfies [P]. *)
Fixpoint all_chars (P : ascii -> bool) (s : string) : bool :=
  match s with
  | String c s' => P c && all_chars P s'
  | EmptyString => true
  end.


(** The number of decimal digits in the text. *)
Fixpoint count_digits (s : string) : nat :=
  match s with
  | String c s' => if is_digit c then S (count_digits s') else count_digits s'
  | EmptyString => O
  end.

(** The inputs on which [cleanNumber] can produce an infinite number: an
    infinite number, and text with enough digits to hold a numeral beyond
    the binary64 range. *)
Definition may_overflow (v : value) : bool :=
  match v with
  | VNum (S754_infinity _) => true
  | VStr s => Nat.ltb 308 (count_digits s)
  | _ => false
  end.

(** [n] copies of a character. *)
Fixpoint repeat_char (c : ascii) (n : nat) : string :=
  match n with
  | O => ""
  | S n' => String c (repeat_char c n')
  end.

(** The calendar year of an instant, and whether [toISOString] writes it
    with four digits. *)
Definition year_of (t : Z) : Z :=
  let '(y, _, _) := civil_from_days (t / msPerDay) in y.

Definition four_digit_year (t : Z) : bool := (0 <=? year_of t) && (year_of t <=? 9999).

(** The characters of the date part of an ISO instant. *)
Definition date_char (c : ascii) : bool :=
  is_digit c || Ascii.eqb c "-" || Ascii.eqb c "+".

(** The records of a list dated at the instant [t], in the order of the
    list. *)
Definition dated (E : engine) (t : Z) (l : list object) : list object :=
  filter (fun r => date_time E r = Some t) l.

(** The columns read with [cleanNumber]: the core metrics and, for every
    region, two channels by three measures. *)
Definition core_columns : list string :=
  [ "Steam Total Traffic"; "Steam Search"; "Steam 3rd Party"; "Steam Discount Page";
    "Steam Bot"; "Steam Other page"; "Wishlist Addition"; "Wishlist Deletions";
    "Purchase&Activations"; "Gifts"; "Total Wishlist Balance" ].

Definition region_columns (region : string) : list string :=
  [ "GA " +:+ region +:+ " Cost"; "GA " +:+ region +:+ " Impression";
    "GA " +:+ region +:+ " Click"; "X " +:+ region +:+ " Cost";
    "X " +:+ region +:+ " Impression"; "X " +:+ region +:+ " Click" ].

Definition region_codes : list string := [ "KR"; "EN"; "CNTW"; "JP" ].

Definition numeric_columns : list string :=
  core_columns ++ concat (map region_columns region_codes).

(** The columns the older component writes for a selected region. *)
Definition legacy_columns (region : string) : list string :=
  "Date" :: core_columns ++ [ "GA " +:+ region +:+ " Click"; "X " +:+ region +:+ " Click" ].


(** The series an upload leaves in the state, if it leaves one. *)
Definition series_of (r : result state) : option (list object) :=
  match r with
  | Ok st => Some (data st)
  | Throw _ => None
  end.

(** The rows of the end-to-end scenario of the specification, and a row
    with metrics of a region other than the selected one. *)
Definition february_row : object :=
  {[ "Date" := VStr "2024-02-01"; "Steam Total Traffic" := VStr "1,000";
     "GA KR Click" := VStr "50" ]}.

Definition january_row : object :=
  {[ "Date" := VStr "2024-01-15"; "Steam Total Traffic" := VStr "-";
     "GA KR Click" := VStr "" ]}.

Definition english_row : object :=
  {[ "Date" := VStr "2024-01-15"; "GA EN Click" := VStr "7"; "X KR Cost" := VStr "1,500" ]}.

(** The integer a number is, when it is one. *)
Definition integer_of (x : number) : option Z :=
  match x with
  | S754_zero _ => Some 0
  | S754_finite s m e =>
      let sign := if s then -1 else 1 in
      if 0 <=? e then Some (sign * (Zpos m * 2 ^ e))
      else if Zpos m mod 2 ^ (- e) =? 0 then Some (sign * (Zpos m / 2 ^ (- e)))
      else None
  | S754_infinity _ | S754_nan => None
  end.

(** The decimal value of the digits at the head of a text. *)
Definition digits_value (s : string) : Z :=
  let '(n, _, _) := take_digits 0 0 s in n.

(** Numbers none of which is [NaN]. *)
Definition numbers (xs : list number) : Prop := Forall (fun x => is_nan x = false) xs.

(** A state in which the error banner is shown, and records with one
    plotted field, for examples. *)
Definition failed_state : state :=
  {| data := []; error := "Error processing file: bad zip";
     selectedRegion := "KR"; debugInfo := ""; isLoading := false |}.

Definition axis_sample : list object :=
  [ {[ "a" := VStr "1,500" ]}; {[ "a" := VStr "-" ]}; {[ "a" := VNum (Prim2SF 40%float) ]} ].













(** * Properties *)

(** ** Checks of the models of the built-ins

    The number model against the kernel's binary64 arithmetic (literals
    are rounded by the kernel's own reader, quotients by [SFdiv]), the
    date model against known instants. *)

#[local] Set Warnings "-inexact-float".

Example parse_1234 : parseFloat "1234" = Prim2SF 1234%float.
Proof. vm_compute. reflexivity. Qed.
Example parse_tenth : parseFloat "0.1" = Prim2SF 0.1%float.
Proof. vm_compute. reflexivity. Qed.
Example parse_exp : parseFloat "  -6.02e23xyz" = Prim2SF (-6.02e23)%float.
Proof. vm_compute. reflexivity. Qed.
Example parse_subnormal : parseFloat "4.9e-324" = Prim2SF 4.9e-324%float.
Proof. vm_compute. reflexivity. Qed.
Example parse_underflow : parseFloat "2e-324" = pos_zero.
Proof. vm_compute. reflexivity. Qed.
Example parse_max : parseFloat "1.7976931348623157e308" = Prim2SF 1.7976931348623157e308%float.
Proof. vm_compute. reflexivity. Qed.
Example parse_below_threshold :
  parseFloat "1.7976931348623158e308" = Prim2SF 1.7976931348623157e308%float.
Proof. vm_compute. reflexivity. Qed.
Example parse_overflow : parseFloat "1.7976931348623159e308" = Infinity.
Proof. vm_compute. reflexivity. Qed.
Example parse_dot : parseFloat "." = NaN.
Proof. vm_compute. reflexivity. Qed.
Example parse_trailing_dot : parseFloat "7.e2" = Prim2SF 700%float.
Proof. vm_compute. reflexivity. Qed.
Example parse_minus_zero : parseFloat "-0" = S754_zero true.
Proof. vm_compute. reflexivity. Qed.
Example parse_tie : parseFloat "9007199254740993" = Prim2SF 9007199254740992%float.
Proof. vm_compute. reflexivity. Qed.
Example parse_tie_up : parseFloat "9007199254740995" = Prim2SF 9007199254740996%float.
Proof. vm_compute. reflexivity. Qed.
Example round_third :
  round_binary64 false 1 3 = SFdiv prec emax (Prim2SF 1%float) (Prim2SF 3%float).
Proof. vm_compute. reflexivity. Qed.
Example round_subnormal_quotient :
  Prim2SF 5e-320%float = S754_finite false 10120 (-1074)
  /\ round_binary64 false 10120 (3 * 2 ^ 1074)
     = SFdiv prec emax (Prim2SF 5e-320%float) (Prim2SF 3%float).
Proof. vm_compute. split; reflexivity. Qed.
Example round_large_quotient :
  round_binary64 true (3 * 2 ^ 1000) 7
  = SFdiv prec emax (Prim2SF (-0x3p+1000)%float) (Prim2SF 7%float).
Proof. vm_compute. reflexivity. Qed.

Example iso_epoch : toISOString (Some 0) = Ok "1970-01-01T00:00:00.000Z".
Proof. reflexivity. Qed.
Example iso_2024 : toISOString (Some 1705322096789) = Ok "2024-01-15T12:34:56.789Z".
Proof. reflexivity. Qed.
Example iso_leap : isoDate 951782400000 = "2000-02-29".
Proof. reflexivity. Qed.
Example iso_before_epoch : toISOString (Some (-1)) = Ok "1969-12-31T23:59:59.999Z".
Proof. reflexivity. Qed.
Example iso_max : toISOString (Some max_time) = Ok "+275760-09-13T00:00:00.000Z".
Proof. reflexivity. Qed.
Example iso_min : toISOString (Some (- max_time)) = Ok "-271821-04-20T00:00:00.000Z".
Proof. reflexivity. Qed.
Example iso_year0 : isoDate (-62167219200000) = "0000-01-01".
Proof. reflexivity. Qed.
Example iso_bc : isoDate (-62167219200001) = "-000001-12-31".
Proof. reflexivity. Qed.
(** The calendar conversions are inverse to each other, and months and
    days are in range, on every day from 1899 to 2011 (the span holds a
    century year that is not a leap year and one that is). *)
Example civil_days_roundtrip :
  days_from_civil 1899 1 1 = -25932
  /\ all_days (fun z =>
                 let '(y, m, d) := civil_from_days z in
                 (days_from_civil y m d =? z) && (1 <=? m) && (m <=? 12)
                 && (1 <=? d) && (d <=? days_in_month y m))
              (-25932) 41000
     = true.
Proof. split; vm_compute; reflexivity. Qed.
Example parse_iso_2024 : parse_iso_date "2024-01-15" = Some 1705276800000.
Proof. reflexivity. Qed.
Example parse_iso_bad : parse_iso_date "2023-02-29" = None.
Proof. reflexivity. Qed.

(** The placeholder literals are the UTF-8 bytes of the source text. *)
Example won_dash_text : won_dash = "₩-".
Proof. reflexivity. Qed.
Example won_dash_damaged_text : won_dash_damaged = "â‚©-".
Proof. reflexivity. Qed.

(** ** Numbers read from text *)

Section NumberFacts.

Lemma round_binary64_finite s n d :
  n < overflow_threshold * d -> is_finite (round_binary64 s n d) = true.
Proof.
  intros Hlt. unfold round_binary64.
  destruct (n <=? 0); [reflexivity|].
  destruct (Z.leb_spec (overflow_threshold * d) n) as [Hge|_]; [lia|].
  cbv zeta.
  match goal with |- context [match ?m with Z0 => _ | Zpos _ => _ | Zneg _ => _ end] =>
    destruct m; try reflexivity end.
  match goal with |- context [if ?b then _ else _] => destruct b; reflexivity end.
Qed.

Lemma round_binary64_not_nan s n d : is_nan (round_binary64 s n d) = false.
Proof.
  unfold round_binary64.
  repeat match goal with
         | |- context [if ?b then _ else _] => destruct b; try reflexivity
         | |- context [match ?m with Z0 => _ | Zpos _ => _ | Zneg _ => _ end] =>
             destruct m; try reflexivity
         end.
Qed.

Lemma pow10_308_below_threshold : 10 ^ 308 < overflow_threshold.
Proof. apply Z.ltb_lt. vm_compute. reflexivity. Qed.

Lemma overflow_threshold_pos : 0 < overflow_threshold.
Proof. apply Z.ltb_lt. vm_compute. reflexivity. Qed.

(** A numeral of at most 308 digits with no positive exponent is below
    the overflow threshold. *)
Lemma of_decimal_finite s m x (k : nat) :
  0 <= m < 10 ^ Z.of_nat k -> (k <= 308)%nat -> x <= 0 ->
  is_finite (of_decimal s m x) = true.
Proof.
  intros [Hm0 Hm] Hk Hx.
  assert (Hpow : 10 ^ Z.of_nat k <= 10 ^ 308)
    by (apply Z.pow_le_mono_r; lia).
  pose proof pow10_308_below_threshold as Hthr.
  pose proof overflow_threshold_pos as Hpos.
  generalize dependent (10 ^ 308). generalize dependent (10 ^ Z.of_nat k).
  intros p Hm q Hpq Hq.
  unfold of_decimal. destruct (Z.leb_spec 0 x) as [H0|H0].
  - assert (x = 0) as -> by lia. apply round_binary64_finite.
    change (10 ^ 0) with 1. lia.
  - apply round_binary64_finite.
    assert (1 <= 10 ^ (- x)) by (apply Z.lt_pred_le, Z.pow_pos_nonneg; lia).
    nia.
Qed.

Lemma of_decimal_not_nan s m x : is_nan (of_decimal s m x) = false.
Proof. unfold of_decimal. destruct (0 <=? x); apply round_binary64_not_nan. Qed.

End NumberFacts.

(** ** Text stripped to digits, dots and dashes *)

Section StripFacts.

Lemma all_chars_strip s : all_chars kept (strip s) = true.
Proof.
  induction s as [|c s IH]; simpl; [reflexivity|].
  destruct (kept c) eqn:Hc; simpl; [rewrite Hc|]; exact IH.
Qed.

Lemma count_digits_strip s : count_digits (strip s) = count_digits s.
Proof.
  induction s as [|c s IH]; simpl; [reflexivity|]. unfold kept.
  destruct (is_digit c) eqn:Hc; simpl; [rewrite Hc, IH; reflexivity|].
  destruct (Ascii.eqb c "." || Ascii.eqb c "-"); simpl; [rewrite Hc|]; exact IH.
Qed.

Lemma skip_spaces_kept s :
  all_chars kept s = true ->
  all_chars kept (skip_spaces s) = true
  /\ (count_digits (skip_spaces s) <= count_digits s)%nat.
Proof.
  induction s as [|c s IH]; simpl; intros H; [split; [reflexivity|lia]|].
  apply andb_true_iff in H as [Hc Hs].
  destruct (is_space c); simpl.
  - destruct (IH Hs); split; [assumption|]. destruct (is_digit c); lia.
  - rewrite Hc, Hs. split; [reflexivity|lia].
Qed.

Lemma digit_val_range c : is_digit c = true -> 0 <= digit_val c <= 9.
Proof. unfold is_digit, digit_val. lia. Qed.

(** What [take_digits] returns: [j] digits were read, the number read
    extends [acc] by [j] decimal places, and the rest is a suffix. *)
Lemma take_digits_spec s : forall acc k m k' r,
  take_digits acc k s = (m, k', r) ->
  exists j : nat,
    k' = (k + j)%nat
    /\ acc * 10 ^ Z.of_nat j <= m < (acc + 1) * 10 ^ Z.of_nat j
    /\ (count_digits r + j = count_digits s)%nat
    /\ (forall P, all_chars P s = true -> all_chars P r = true).
Proof.
  induction s as [|c s IH]; simpl; intros acc k m k' r H.
  - inversion H; subst. exists 0%nat. change (10 ^ Z.of_nat 0) with 1.
    repeat split; auto; lia.
  - destruct (is_digit c) eqn:Hc.
    + apply IH in H as (j & -> & Hm & Hlen & Hall).
      pose proof (digit_val_range c Hc) as Hd.
      exists (S j). rewrite Nat2Z.inj_succ, Z.pow_succ_r by lia.
      assert (0 < 10 ^ Z.of_nat j) by (apply Z.pow_pos_nonneg; lia).
      repeat split; try lia; try nia.
      intros P HP. apply andb_true_iff in HP as [_ HP]. auto.
    + inversion H; subst. exists 0%nat. change (10 ^ Z.of_nat 0) with 1.
      simpl. rewrite Hc. repeat split; auto; try lia.
Qed.

Lemma take_exponent_kept s : all_chars kept s = true -> take_exponent s = 0.
Proof.
  destruct s as [|c s]; [reflexivity|]. simpl. intros H.
  apply andb_true_iff in H as [Hc _].
  destruct (Ascii.eqb_spec c "e") as [->|_]; [discriminate Hc|].
  destruct (Ascii.eqb_spec c "E") as [->|_]; [discriminate Hc|].
  reflexivity.
Qed.

Lemma starts_with_Infinity_kept s :
  all_chars kept s = true -> starts_with "Infinity" s = false.
Proof.
  destruct s as [|c s]; [reflexivity|]. intros H. simpl in H.
  apply andb_true_iff in H as [Hc _].
  change (starts_with "Infinity" (String c s))
    with (Ascii.eqb "I" c && starts_with "nfinity" s).
  destruct (Ascii.eqb_spec "I" c) as [<-|_]; [discriminate Hc|reflexivity].
Qed.

End StripFacts.

(** ** [parseFloat] on stripped text *)

Section ParseFacts.

Lemma take_sign_kept s neg t :
  take_sign s = (neg, t) -> all_chars kept s = true ->
  all_chars kept t = true /\ (count_digits t <= count_digits s)%nat.
Proof.
  destruct s as [|c s]; simpl.
  - intros [= <- <-] _. split; [reflexivity|simpl; lia].
  - intros H Hk. pose proof Hk as Hk'. apply andb_true_iff in Hk' as [_ Hs].
    destruct (Ascii.eqb c "-"); [|destruct (Ascii.eqb c "+")];
      injection H as <- <-; simpl; (split; [assumption|destruct (is_digit c); lia]).
Qed.

Lemma take_fraction_spec ip s m kf r :
  take_fraction ip s = (m, kf, r) ->
  ip * 10 ^ Z.of_nat kf <= m < (ip + 1) * 10 ^ Z.of_nat kf
  /\ (count_digits r + kf <= count_digits s)%nat
  /\ (forall P, all_chars P s = true -> all_chars P r = true).
Proof.
  assert (Hnone : (ip, 0%nat, s) = (m, kf, r) ->
    ip * 10 ^ Z.of_nat kf <= m < (ip + 1) * 10 ^ Z.of_nat kf
    /\ (count_digits r + kf <= count_digits s)%nat
    /\ (forall P, all_chars P s = true -> all_chars P r = true)).
  { intros [= <- <- <-]. change (10 ^ Z.of_nat 0) with 1.
    repeat split; auto; lia. }
  destruct s as [|c t]; [exact Hnone|]. cbn [take_fraction].
  destruct (Ascii.eqb c "."); [|exact Hnone].
  intros H. apply take_digits_spec in H as (j & Hk & Hm & Hlen & Hall).
  simpl in Hk. subst kf. split; [lia|]. split.
  - simpl. destruct (is_digit c); lia.
  - intros P HP. simpl in HP. apply andb_true_iff in HP as [_ HP]. auto.
Qed.

(** On text of digits, dots and dashes [parseFloat] yields [NaN] or the
    rounding of a numeral with no exponent part and no more digits than
    the text has characters. *)
Lemma parseFloat_kept s :
  all_chars kept s = true ->
  parseFloat s = NaN
  \/ exists neg m (k kf : nat),
       parseFloat s = of_decimal neg m (- Z.of_nat kf)
       /\ 0 <= m < 10 ^ Z.of_nat k /\ (k <= count_digits s)%nat.
Proof.
  intros Hs. unfold parseFloat.
  destruct (skip_spaces_kept s Hs) as [H0 L0].
  destruct (take_sign (skip_spaces s)) as [neg s1] eqn:Hsign.
  destruct (take_sign_kept _ _ _ Hsign H0) as [H1 L1].
  rewrite (starts_with_Infinity_kept s1 H1).
  destruct (take_digits 0 0 s1) as [[ip ki] r1] eqn:Hint.
  destruct (take_fraction ip r1) as [[m kf] r2] eqn:Hfrac.
  apply take_digits_spec in Hint as (j & Hki & Hip & Hlen1 & Hall1).
  simpl in Hki. subst ki.
  apply take_fraction_spec in Hfrac as (Hm & Hlen2 & Hall2).
  rewrite (take_exponent_kept r2 (Hall2 _ (Hall1 _ H1))).
  assert (Hdec : exists neg' m' (k kf' : nat),
    of_decimal neg m (0 - Z.of_nat kf) = of_decimal neg' m' (- Z.of_nat kf')
    /\ 0 <= m' < 10 ^ Z.of_nat k /\ (k <= count_digits s)%nat).
  { exists neg, m, (j + kf)%nat, kf. split; [reflexivity|]. split; [|lia].
    rewrite Nat2Z.inj_add, Z.pow_add_r by lia.
    assert (0 < 10 ^ Z.of_nat j) by (apply Z.pow_pos_nonneg; lia).
    assert (0 < 10 ^ Z.of_nat kf) by (apply Z.pow_pos_nonneg; lia).
    nia. }
  destruct j, kf; auto.
Qed.

Lemma parseFloat_not_nan_finite s :
  all_chars kept s = true -> (count_digits s <= 308)%nat ->
  is_nan (parseFloat s) = false -> is_finite (parseFloat s) = true.
Proof.
  intros Hs Hlen Hnan.
  destruct (parseFloat_kept s Hs) as [H|(neg & m & k & kf & -> & Hm & Hk)].
  - rewrite H in Hnan. discriminate.
  - apply (of_decimal_finite _ _ _ k); [assumption|lia|lia].
Qed.






End ParseFacts.

(** ** [cleanNumber] *)

Section CleanNumberFacts.

Lemma num_0 : num 0 = VNum pos_zero.
Proof. reflexivity. Qed.

Lemma cleanNumber_with_total placeholder v :
  exists n, cleanNumber_with placeholder v = VNum n
            /\ is_nan n = false
            /\ (may_overflow v = false -> is_finite n = true).
Proof.
  unfold cleanNumber_with.
  destruct (falsy v || bool_decide (v = VStr "-")
            || bool_decide (v = VStr placeholder)) eqn:Hguard.
  { exists pos_zero. repeat split. }
  apply orb_false_iff in Hguard as [Hguard _].
  apply orb_false_iff in Hguard as [Hfalsy _].
  destruct v as [| |b|x|s]; try solve [exists pos_zero; repeat split].
  - (* a number: returned as it is *)
    exists x. split; [reflexivity|].
    destruct x; try discriminate Hfalsy; repeat split; discriminate.
  - (* text *)
    unfold or_else. simpl truthy.
    pose proof (all_chars_strip s) as Hk.
    pose proof (count_digits_strip s) as Hl.
    pose proof (parseFloat_not_nan_finite (strip s) Hk) as Hfin.
    destruct (parseFloat (strip s)) as [sg|sg| |sg m e].
    + exists pos_zero. repeat split.
    + exists (S754_infinity sg). repeat split. simpl. intros Hlen.
      apply Nat.ltb_ge in Hlen. apply Hfin; [lia|reflexivity].
    + exists pos_zero. repeat split.
    + exists (S754_finite sg m e). repeat split.
Qed.


Lemma cleanNumber_with_missing placeholder :
  cleanNumber_with placeholder VUndefined = num 0.
Proof. reflexivity. Qed.

End CleanNumberFacts.

(** C2 (as amended).  [cleanNumber], in both versions of the component,
    is total and never throws: on every value it returns a number, and
    that number is never [NaN].  The number is finite unless the input is
    an infinite number, which is returned as it is, or text with more than
    308 digits, whose numeral can exceed the binary64 range. *)
Theorem cleanNumber_total (v : value) :
  (exists n, cleanNumber v = VNum n /\ is_nan n = false
             /\ (may_overflow v = false -> is_finite n = true))
  /\ (exists n, Legacy.cleanNumber v = VNum n /\ is_nan n = false
                /\ (may_overflow v = false -> is_finite n = true)).
Proof. split; apply cleanNumber_with_total. Qed.

Lemma cleanNumber_total_witness :
  may_overflow (VStr "12,5") = false
  /\ exists n, cleanNumber (VStr "12,5") = VNum n /\ is_finite n = true.
Proof.
  split; [reflexivity|].
  destruct (cleanNumber_total (VStr "12,5")) as [(n & Hn & _ & Hfin) _].
  exists n. split; [exact Hn|]. apply Hfin. reflexivity.
Defined.

(** C2 (as stated) fails: an infinite number passes through
    [cleanNumber] unchanged, and a numeral of 309 digits overflows to
    [Infinity]; neither result is finite. *)
Lemma cleanNumber_not_always_finite :
  cleanNumber (VNum Infinity) = VNum Infinity
  /\ Legacy.cleanNumber (VNum Infinity) = VNum Infinity
  /\ cleanNumber (VStr (repeat_char "9" 309)) = VNum Infinity
  /\ is_finite Infinity = false.
Proof. vm_compute. repeat split. Qed.

(** C8.  The test vectors of [normalizeNumber], in both versions: the
    currency text, the dash placeholder, the empty text, a number, and a
    signed decimal. *)
Theorem cleanNumber_test_vectors :
  Forall (fun normalizeNumber : value -> value =>
            normalizeNumber (VStr "₩1,234") = VNum (Prim2SF 1234%float)
            /\ normalizeNumber (VStr "-") = VNum (Prim2SF 0%float)
            /\ normalizeNumber (VStr "") = VNum (Prim2SF 0%float)
            /\ normalizeNumber (VNum (Prim2SF 500%float)) = VNum (Prim2SF 500%float)
            /\ normalizeNumber (VStr "-42.5") = VNum (Prim2SF (-42.5)%float))
         [cleanNumber; Legacy.cleanNumber].
Proof. repeat constructor; vm_compute; reflexivity. Qed.

(** C10.  A numeral that is malformed as a whole but starts with a
    well-formed one is read up to the end of that prefix, in both
    versions: ["1.2.3"] gives 1.2 and ["12-34"] gives 12, not the default
    0. *)
Theorem cleanNumber_numeric_prefix :
  Forall (fun normalizeNumber : value -> value =>
            normalizeNumber (VStr "1.2.3") = VNum (Prim2SF 1.2%float)
            /\ normalizeNumber (VStr "12-34") = VNum (Prim2SF 12%float)
            /\ normalizeNumber (VStr "1.2.3") <> num 0
            /\ normalizeNumber (VStr "12-34") <> num 0)
         [cleanNumber; Legacy.cleanNumber].
Proof. repeat constructor; vm_compute; (reflexivity || discriminate). Qed.

(** ** Dates *)

Section DateFacts.

Lemma all_chars_app P a b :
  all_chars P (a +:+ b) = all_chars P a && all_chars P b.
Proof. induction a as [|c a IH]; simpl; [reflexivity|]. rewrite IH. apply andb_assoc. Qed.

Lemma length_app a b :
  String.length (a +:+ b) = (String.length a + String.length b)%nat.
Proof. induction a as [|c a IH]; simpl; [reflexivity|]. rewrite IH. reflexivity. Qed.

Lemma digit_char_is_digit d : is_digit (digit_char d) = true.
Proof. unfold digit_char. repeat case_match; reflexivity. Qed.

Lemma all_chars_pad w n : all_chars date_char (pad w n) = true.
Proof.
  revert n. induction w as [|w IH]; intros n; simpl; [reflexivity|].
  rewrite all_chars_app, IH. simpl. unfold date_char.
  rewrite digit_char_is_digit. reflexivity.
Qed.

Lemma length_pad w n : String.length (pad w n) = w.
Proof.
  revert n. induction w as [|w IH]; intros n; simpl; [reflexivity|].
  rewrite length_app, IH. simpl. lia.
Qed.

Lemma all_chars_iso_year y : all_chars date_char (iso_year y) = true.
Proof.
  unfold iso_year. destruct ((0 <=? y) && (y <=? 9999)).
  - apply all_chars_pad.
  - rewrite all_chars_app, all_chars_pad. destruct (y <? 0); reflexivity.
Qed.

Lemma all_chars_isoDate t : all_chars date_char (isoDate t) = true.
Proof.
  unfold isoDate. destruct (civil_from_days (t / msPerDay)) as [[y m] d].
  rewrite !all_chars_app, all_chars_iso_year, !all_chars_pad. reflexivity.
Qed.

(** The date part is [YYYY-MM-DD] in the years 0 to 9999, and a sign,
    six year digits, [-MM-DD] in all other years. *)
Lemma isoDate_shape t :
  exists y m d,
    civil_from_days (t / msPerDay) = (y, m, d)
    /\ isoDate t
       = (if four_digit_year t then pad 4 y
          else (if y <? 0 then "-" else "+") +:+ pad 6 (Z.abs y))
         +:+ "-" +:+ pad 2 m +:+ "-" +:+ pad 2 d
    /\ String.length (isoDate t) = if four_digit_year t then 10%nat else 13%nat.
Proof.
  unfold isoDate, iso_year, four_digit_year, year_of.
  destruct (civil_from_days (t / msPerDay)) as [[y m] d].
  exists y, m, d. split; [reflexivity|]. split; [reflexivity|].
  destruct ((0 <=? y) && (y <=? 9999)).
  - rewrite !length_app, !length_pad. reflexivity.
  - rewrite !length_app, !length_pad. destruct (y <? 0); reflexivity.
Qed.

Lemma before_app c a b :
  all_chars (fun x => negb (Ascii.eqb x c)) a = true ->
  before c (a +:+ String c b) = a.
Proof.
  induction a as [|x a IH]; simpl.
  - rewrite Ascii.eqb_refl. reflexivity.
  - intros H. apply andb_true_iff in H as [Hx Ha].
    apply negb_true_iff in Hx. rewrite Hx, IH by assumption. reflexivity.
Qed.

Lemma all_chars_impl (P Q : ascii -> bool) s :
  (forall c, P c = true -> Q c = true) -> all_chars P s = true -> all_chars Q s = true.
Proof.
  intros HPQ. induction s as [|c s IH]; simpl; [reflexivity|].
  intros H. apply andb_true_iff in H as [Hc Hs]. rewrite (HPQ c Hc), IH by assumption.
  reflexivity.
Qed.

Lemma date_char_not_T c : date_char c = true -> negb (Ascii.eqb c "T") = true.
Proof.
  destruct (Ascii.eqb_spec c "T") as [->|_]; [discriminate|reflexivity].
Qed.

(** [toISOString().split('T')[0]] is the date part of the instant. *)
Lemma before_T_toISOString t :
  before "T" (isoDate t +:+ "T" +:+ isoTime t +:+ "Z") = isoDate t.
Proof.
  apply before_app, (all_chars_impl date_char); [apply date_char_not_T|].
  apply all_chars_isoDate.
Qed.

Lemma includes_not_empty c s : includes c s = true -> truthy (VStr s) = true.
Proof. destruct s; [discriminate|reflexivity]. Qed.

End DateFacts.

(** C7 (as stated) fails: a valid date beyond the year 9999 is rendered
    with a sign and six year digits, which is neither [YYYY-MM-DD] nor the
    raw value. *)
Lemma formatDate_expanded_year :
  truthy (VNum (Prim2SF 1e15%float)) = true
  /\ Date_new sample_engine (VNum (Prim2SF 1e15%float)) = Some 1000000000000000
  /\ formatDate sample_engine (VNum (Prim2SF 1e15%float)) = VStr "+033658-09-27"
  /\ String.length "+033658-09-27" <> 10%nat
  /\ formatDate sample_engine (VNum (Prim2SF 1e15%float)) <> VNum (Prim2SF 1e15%float).
Proof. vm_compute. repeat split; discriminate. Qed.

(** C7 (as amended).  [formatDate] on every value: a falsy value gives
    the empty text; text containing a dash is returned as it is; any other
    value is turned into a date, and the result is the date part of its
    ISO instant, ten characters [YYYY-MM-DD] in the years 0 to 9999 and
    thirteen characters, with a sign and six year digits, in other years;
    when the date is invalid the value itself is returned.  The two
    examples of the specification are included. *)
Theorem formatDate_cases (E : engine) (v : value) :
  (falsy v = true -> formatDate E v = VStr "")
  /\ (forall s, v = VStr s -> includes "-" s = true -> formatDate E v = v)
  /\ (falsy v = false ->
      (forall s, v = VStr s -> includes "-" s = false) ->
      match Date_new E v with
      | Some t =>
          formatDate E v = VStr (isoDate t)
          /\ String.length (isoDate t) = (if four_digit_year t then 10%nat else 13%nat)
          /\ all_chars date_char (isoDate t) = true
      | None => formatDate E v = v
      end)
  /\ formatDate E (VStr "2024-01-15") = VStr "2024-01-15"
  /\ formatDate E VUndefined = VStr "".
Proof.
  split; [|split; [|split; [|split; reflexivity]]].
  - intros Hf. unfold formatDate. rewrite Hf. reflexivity.
  - intros s -> Hs. unfold formatDate, falsy.
    rewrite (includes_not_empty _ _ Hs), Hs. reflexivity.
  - intros Hf Hdash. unfold formatDate. rewrite Hf.
    assert (Hno : match v with VStr s => includes "-" s | _ => false end = false)
      by (destruct v; auto).
    rewrite Hno. destruct (Date_new E v) as [t|]; simpl; [|reflexivity].
    rewrite before_T_toISOString.
    destruct (isoDate_shape t) as (y & m & d & _ & _ & Hlen).
    split; [reflexivity|]. split; [exact Hlen|apply all_chars_isoDate].
Qed.

Lemma formatDate_cases_witness :
  falsy (VNum (Prim2SF 1705322096789%float)) = false
  /\ formatDate sample_engine (VNum (Prim2SF 1705322096789%float)) = VStr "2024-01-15"
  /\ formatDate sample_engine (VStr "15/01/2024") = VStr "15/01/2024"
  /\ formatDate sample_engine (VStr "15-Jan") = VStr "15-Jan"
  /\ formatDate sample_engine (VStr "") = VStr "".
Proof.
  pose proof (formatDate_cases sample_engine (VNum (Prim2SF 1705322096789%float)))
    as (_ & _ & Hnum & _).
  pose proof (formatDate_cases sample_engine (VStr "15/01/2024")) as (_ & _ & Hbad & _).
  pose proof (formatDate_cases sample_engine (VStr "15-Jan")) as (_ & Hdash & _).
  pose proof (formatDate_cases sample_engine (VStr "")) as (Hempty & _).
  split; [reflexivity|]. split.
  { apply Hnum; [reflexivity|discriminate]. }
  split.
  { apply Hbad; [reflexivity|]. intros s [= <-]. reflexivity. }
  split.
  { apply (Hdash _ eq_refl). reflexivity. }
  apply Hempty. reflexivity.
Defined.

(** ** The sort *)

Section SortFacts.
Context {A : Type} (key : A -> option Z).

(** The comparator of a sort by an optional integer key: the difference
    of the keys, [NaN] when one is missing. *)
Let cmp (a b : A) : option Z := ka ← key a; kb ← key b; Some (ka - kb).

Let key_le (a b : A) : Prop :=
  forall ka kb, key a = Some ka -> key b = Some kb -> ka <= kb.

Lemma after_true x y :
  after cmp x y = true ->
  exists kx ky, key x = Some kx /\ key y = Some ky /\ ky < kx.
Proof.
  unfold after, cmp. destruct (key x) as [kx|], (key y) as [ky|]; simpl; try discriminate.
  intros H. exists kx, ky. repeat split. lia.
Qed.

Lemma after_false x y : after cmp x y = false -> key_le x y.
Proof.
  unfold after, cmp, key_le. intros H kx ky Hx Hy. rewrite Hx, Hy in H. simpl in H. lia.
Qed.

Lemma length_insert_sorted x l : length (insert_sorted cmp x l) = S (length l).
Proof. induction l as [|y l IH]; simpl; [reflexivity|]. destruct (after cmp x y); simpl; lia. Qed.

Lemma length_Array_sort l : length (Array_sort cmp l) = length l.
Proof. induction l as [|x l IH]; simpl; [reflexivity|]. rewrite length_insert_sorted. lia. Qed.

Lemma insert_sorted_Permutation x l : insert_sorted cmp x l ≡ₚ x :: l.
Proof.
  induction l as [|y l IH]; simpl; [reflexivity|].
  destruct (after cmp x y); [|reflexivity].
  rewrite IH. apply Permutation_swap.
Qed.

Lemma Array_sort_Permutation l : Array_sort cmp l ≡ₚ l.
Proof.
  induction l as [|x l IH]; simpl; [reflexivity|].
  rewrite insert_sorted_Permutation, IH. reflexivity.
Qed.

(** The head of the list after an insertion is the inserted element or
    the old head. *)
Lemma HdRel_insert_sorted y x l :
  key_le y x -> HdRel key_le y l -> HdRel key_le y (insert_sorted cmp x l).
Proof.
  intros Hyx Hl. destruct l as [|z l]; simpl; [constructor; exact Hyx|].
  destruct (after cmp x z); constructor; [|exact Hyx].
  inversion Hl; assumption.
Qed.

Lemma Sorted_insert_sorted x l :
  Sorted key_le l -> Sorted key_le (insert_sorted cmp x l).
Proof.
  induction 1 as [|y l Hl IH Hhd]; simpl; [repeat constructor|].
  destruct (after cmp x y) eqn:Hxy.
  - constructor; [exact IH|]. apply HdRel_insert_sorted; [|exact Hhd].
    apply after_true in Hxy as (kx & ky & Hx & Hy & Hlt).
    intros ka kb Ha Hb. rewrite Hy in Ha. rewrite Hx in Hb.
    injection Ha as <-. injection Hb as <-. lia.
  - constructor; [constructor; assumption|]. constructor. apply after_false, Hxy.
Qed.

Lemma Sorted_Array_sort l : Sorted key_le (Array_sort cmp l).
Proof. induction l as [|x l IH]; simpl; [constructor|]. apply Sorted_insert_sorted, IH. Qed.


(** An insertion moves the new element only past elements with a
    strictly smaller key, so the elements of any one key keep their
    order. *)
Lemma filter_insert_sorted (k : Z) x l :
  filter (fun a => key a = Some k) (insert_sorted cmp x l)
  = filter (fun a => key a = Some k) (x :: l).
Proof.
  induction l as [|y l IH]; [reflexivity|]. cbn [insert_sorted].
  destruct (after cmp x y) eqn:Hxy; [|reflexivity].
  rewrite filter_cons, IH, !filter_cons.
  apply after_true in Hxy as (kx & ky & Hx & Hy & Hlt).
  repeat case_decide; try reflexivity.
  assert (kx = ky) by congruence. lia.
Qed.

Lemma filter_Array_sort (k : Z) l :
  filter (fun a => key a = Some k) (Array_sort cmp l)
  = filter (fun a => key a = Some k) l.
Proof.
  induction l as [|x l IH]; [reflexivity|]. cbn [Array_sort].
  rewrite filter_insert_sorted, !filter_cons, IH. reflexivity.
Qed.

(** With every key present the comparator is a consistent order, and the
    stable sorted arrangement of a list is unique: any sort the standard
    allows returns what [Array_sort] returns. *)
Lemma Sorted_head_le x l :
  Forall (fun a => is_Some (key a)) (x :: l) -> Sorted key_le (x :: l) ->
  Forall (key_le x) l.
Proof.
  revert x. induction l as [|y l IH]; intros x Hv Hs; [constructor|].
  apply Sorted_inv in Hs as [Hs Hhd]. apply HdRel_inv in Hhd.
  apply Forall_cons in Hv as [Hx Hv].
  constructor; [exact Hhd|].
  specialize (IH y Hv Hs).
  apply Forall_cons in Hv as [[ky Hy] _].
  eapply Forall_impl; [exact IH|]. intros z Hyz kx kz Hkx Hkz.
  specialize (Hhd kx ky Hkx Hy). specialize (Hyz ky kz Hy Hkz). lia.
Qed.

Lemma Array_sort_unique l l' :
  Forall (fun a => is_Some (key a)) l ->
  l' ≡ₚ l -> Sorted key_le l' ->
  (forall k, filter (fun a => key a = Some k) l' = filter (fun a => key a = Some k) l) ->
  l' = Array_sort cmp l.
Proof.
  intros Hv Hp Hs Hf.
  assert (Hgen : forall l1 l2 : list A,
    Forall (fun a => is_Some (key a)) l1 -> l2 ≡ₚ l1 ->
    Sorted key_le l1 -> Sorted key_le l2 ->
    (forall k, filter (fun a => key a = Some k) l1 = filter (fun a => key a = Some k) l2) ->
    l1 = l2).
  { clear. induction l1 as [|x l1 IH]; intros l2 Hv Hp Hs1 Hs2 Hf.
    - apply Permutation_nil_r in Hp. congruence.
    - destruct l2 as [|y l2]; [apply Permutation_nil_cons in Hp; contradiction|].
      assert (Hv2 : Forall (fun a => is_Some (key a)) (y :: l2))
        by (rewrite Hp; exact Hv).
      pose proof (Sorted_head_le x l1 Hv Hs1) as Hx.
      pose proof (Sorted_head_le y l2 Hv2 Hs2) as Hy.
      pose proof Hv as Hv1. apply Forall_cons in Hv1 as [[kx Hkx] Hv1].
      pose proof Hv2 as Hv2'. apply Forall_cons in Hv2' as [[ky Hky] Hv2'].
      assert (Hle : kx <= ky).
      { assert (Hin : y ∈ x :: l1) by (rewrite <- Hp; left).
        apply elem_of_cons in Hin as [->|Hin]; [assert (kx = ky) by congruence; lia|].
        rewrite Forall_forall in Hx. exact (Hx y Hin kx ky Hkx Hky). }
      assert (Hge : ky <= kx).
      { assert (Hin : x ∈ y :: l2) by (rewrite Hp; left).
        apply elem_of_cons in Hin as [->|Hin]; [assert (kx = ky) by congruence; lia|].
        rewrite Forall_forall in Hy. exact (Hy x Hin ky kx Hky Hkx). }
      assert (ky = kx) as -> by lia.
      pose proof (Hf kx) as Hk. rewrite !filter_cons in Hk.
      rewrite !decide_True in Hk by assumption. injection Hk as -> Hk.
      f_equal. apply IH.
      + exact Hv1.
      + exact (Permutation_cons_inv Hp).
      + apply Sorted_inv in Hs1 as [Hs1 _]. exact Hs1.
      + apply Sorted_inv in Hs2 as [Hs2 _]. exact Hs2.
      + intros k. specialize (Hf k). rewrite !filter_cons in Hf.
        case_decide; [injection Hf as Hf|]; exact Hf. }
  apply Hgen.
  - rewrite Hp. exact Hv.
  - rewrite Array_sort_Permutation. symmetry. exact Hp.
  - exact Hs.
  - apply Sorted_Array_sort.
  - intros k. rewrite filter_Array_sort. apply Hf.
Qed.

End SortFacts.

(** ** The row mapper *)

Section RowFacts.
Context (E : engine).

(** Compute the property names built by the template literals. *)
Ltac names :=
  repeat match goal with
         | |- context [String.append ?a ?b] =>
             let r := eval vm_compute in (String.append a b) in
             change (String.append a b) with r
         end.

(** Read a property of a record written by a chain of assignments. *)
Ltac read :=
  unfold assign;
  repeat (rewrite lookup_insert_ne by discriminate);
  first [ apply lookup_insert_eq | apply lookup_empty ].

Ltac each_column H :=
  repeat (apply elem_of_cons in H as [->|H]); [..|apply elem_of_nil in H; contradiction].

Lemma processRow_numeric row k :
  k ∈ numeric_columns -> processRow E row !! k = Some (cleanNumber (get row k)).
Proof.
  intros H. unfold numeric_columns, core_columns, region_codes in H.
  cbn [map concat app region_columns] in H.
  each_column H; unfold processRow, REGIONS; cbn [foldl]; names; read.
Qed.


Lemma processRow_Date row :
  processRow E row !! "Date" = Some (formatDate E (get row "Date")).
Proof. unfold processRow, REGIONS; cbn [foldl]; names; read. Qed.

End RowFacts.

(** ** What an upload leaves in the state *)

Section UploadFacts.
Context (E : engine).

Lemma buildSeries_length rows : length (buildSeries E rows) = length rows.
Proof.
  unfold buildSeries. rewrite <- (length_map (processRow E) rows).
  apply (length_Array_sort (date_time E)).
Qed.

Lemma buildSeries_nonempty rows :
  rows <> [] ->
  exists first last', buildSeries E rows !! 0%nat = Some first
                      /\ last (buildSeries E rows) = Some last'.
Proof.
  intros Hne. pose proof (buildSeries_length rows) as Hlen.
  destruct (buildSeries E rows) as [|first series] eqn:Hs.
  - destruct rows; [contradiction|discriminate].
  - exists first. destruct (last (first :: series)) as [l|] eqn:Hl; [eauto|].
    apply last_None in Hl. discriminate.
Qed.

(** [processData] on at least one row: the summary is appended to the
    diagnostic text and the series is stored; nothing else changes. *)
Lemma render_processData region rows st :
  rows <> [] ->
  exists text,
    render (processData E region rows) st
    = Ok {| data := buildSeries E rows; error := error st;
            selectedRegion := selectedRegion st; debugInfo := text;
            isLoading := isLoading st |}.
Proof.
  intros Hne. destruct (buildSeries_nonempty rows Hne) as (first & last' & Hf & Hl).
  unfold processData. cbn [render apply_update append_line]. unfold summary.
  rewrite Hf, Hl. cbn [data error selectedRegion debugInfo isLoading].
  eexists. reflexivity.
Qed.

(** [processData] on no row: the summary updater reads [Date] of
    [undefined]. *)
Lemma render_processData_empty region st :
  render (processData E region []) st = Throw (undefined_read "Date").
Proof. reflexivity. Qed.

Lemma series_of_processData region rows st :
  series_of (render (processData E region rows) st)
  = match rows with [] => None | _ => Some (buildSeries E rows) end.
Proof.
  destruct rows as [|row rows]; [reflexivity|].
  destruct (render_processData region (row :: rows) st) as [text ->]; [discriminate|].
  reflexivity.
Qed.


Lemma render_app us1 us2 st :
  render (us1 ++ us2) st
  = match render us1 st with
    | Ok st' => render us2 st'
    | Throw e => Throw e
    end.
Proof.
  revert st. induction us1 as [|u us1 IH]; intros st; simpl; [reflexivity|].
  destruct (apply_update u st); [apply IH|reflexivity].
Qed.

(** A decoded sheet of at least one row: the upload stores the series
    of the rows and clears the loading flag. *)
Lemma upload_sheet name sheet rows st :
  rows <> [] ->
  exists text,
    upload_file E (File name (Sheet sheet rows)) st
    = Ok {| data := buildSeries E rows; error := error st;
            selectedRegion := selectedRegion st; debugInfo := text;
            isLoading := false |}.
Proof.
  intros Hne. unfold upload_file, handleFileUpload.
  rewrite render_app. cbn [render apply_update set_to]. rewrite render_app.
  cbn [render apply_update append_line].
  match goal with |- context [render (processData E ?r rows) ?s] =>
    destruct (render_processData r rows s Hne) as [text ->] end.
  cbn [render apply_update data error selectedRegion debugInfo isLoading].
  eexists. reflexivity.
Qed.

Lemma series_of_upload name sheet rows st :
  series_of (upload_file E (File name (Sheet sheet rows)) st)
  = match rows with [] => None | _ => Some (buildSeries E rows) end.
Proof.
  destruct rows as [|row rows]; [reflexivity|].
  destruct (upload_sheet name sheet (row :: rows) st) as [text ->]; [discriminate|].
  reflexivity.
Qed.

End UploadFacts.

(** ** The upload handler *)

(** C1.  Uploading a sheet with no rows.  In the newer component
    [processData] registers a summary updater that reads [firstRow.Date]
    with [firstRow] undefined: rendering throws a [TypeError] and no
    state, hence no empty series, comes out of the upload.  In the older
    component the same read is made inside the [try] block: its [catch]
    reports the error and the series is not replaced. *)
Theorem empty_sheet_upload_fails (E : engine) (name sheet : string) (st : state) :
  render (processData E (selectedRegion st) []) st = Throw (undefined_read "Date")
  /\ upload_file E (File name (Sheet sheet [])) st = Throw (undefined_read "Date")
  /\ exists text,
       Legacy.upload_file E (File name (Sheet sheet [])) st
       = Ok {| data := data st;
               error := "Error reading Excel file: Cannot read properties of undefined (reading 'Date')";
               selectedRegion := selectedRegion st;
               debugInfo := text;
               isLoading := isLoading st |}.
Proof. repeat split. eexists. reflexivity. Qed.

(** C6.  A failed decode, in both versions, whether [XLSX.read] or
    [sheet_to_json] throws: the upload ends in a state with the series it
    started with, the error banner set to a message carrying the error
    text, and the error text appended to the diagnostic text. *)
Theorem decode_failure_keeps_series (E : engine) (name sheet msg : string) (st : state) :
  upload_file E (File name (ReadError msg)) st
  = Ok {| data := data st;
          error := "Error processing file: " +:+ msg;
          selectedRegion := selectedRegion st;
          debugInfo := ("File selected: " +:+ name) +:+ nl +:+ "Error: " +:+ msg;
          isLoading := false |}
  /\ upload_file E (File name (SheetError sheet msg)) st
     = Ok {| data := data st;
             error := "Error processing file: " +:+ msg;
             selectedRegion := selectedRegion st;
             debugInfo := (("File selected: " +:+ name) +:+ nl +:+ "Sheet name: " +:+ sheet)
                            +:+ nl +:+ "Error: " +:+ msg;
             isLoading := false |}
  /\ Forall (fun failure =>
       Legacy.upload_file E (File name failure) st
       = Ok {| data := data st;
               error := "Error reading Excel file: " +:+ msg;
               selectedRegion := selectedRegion st;
               debugInfo := ("File selected: " +:+ name) +:+ nl +:+ "Error: " +:+ msg;
               isLoading := isLoading st |})
     [ReadError msg; SheetError sheet msg].
Proof. repeat split. repeat constructor. Qed.

(** C9.  The series [processData] stores is a function of the rows
    alone: whatever the selected region and the rest of the state, two
    runs on the same rows store the same series (or both store none). *)
Theorem series_depends_on_rows_only (E : engine) (rows : list object)
    (region1 region2 : string) (st1 st2 : state) (name1 name2 sheet1 sheet2 : string) :
  series_of (render (processData E region1 rows) st1)
  = series_of (render (processData E region2 rows) st2)
  /\ series_of (upload_file E (File name1 (Sheet sheet1 rows)) st1)
     = series_of (upload_file E (File name2 (Sheet sheet2 rows)) st2).
Proof. rewrite !series_of_processData, !series_of_upload. split; reflexivity. Qed.

(** Membership in a list of literal column names, by evaluation. *)
Ltac column_in_list := apply (bool_decide_unpack _); vm_compute; exact I.

(** ** The sort of V8 *)

Section ListOrder.
Context {A : Type} (R : A -> A -> Prop).






End ListOrder.

Section V8Facts.
Context {A : Type} (key : A -> option Z).

Let cmp (a b : A) : option Z := ka ← key a; kb ← key b; Some (ka - kb).

Let key_le (a b : A) : Prop :=
  forall ka kb, key a = Some ka -> key b = Some kb -> ka <= kb.





(** *** The result is a rearrangement *)







(** *** Neighbours are in order, with or without keys *)






(** *** With every key present the sort is stable *)






End V8Facts.

(** ** The series *)

Section SeriesV8.
Context (E : engine).



End SeriesV8.



(** The series of the scenario of the specification: the January row
    comes first. *)
Lemma scenario_series :
  buildSeries sample_engine [february_row; january_row]
  = [processRow sample_engine january_row; processRow sample_engine february_row].
Proof.
  unfold buildSeries. cbn [map Array_sort insert_sorted].
  replace (after (by_date sample_engine) (processRow sample_engine january_row)
             (processRow sample_engine february_row)) with false
    by (vm_compute; reflexivity).
  replace (after (by_date sample_engine) (processRow sample_engine february_row)
             (processRow sample_engine january_row)) with true
    by (vm_compute; reflexivity).
  reflexivity.
Defined.


(** The series is a rearrangement of the mapped rows. *)
Lemma buildSeries_Permutation (E : engine) (rows : list object) :
  buildSeries E rows ≡ₚ map (processRow E) rows.
Proof. apply (Array_sort_Permutation (date_time E)). Qed.

(** The end-to-end scenario of the specification. *)
Example end_to_end :
  map (fun r => (r !! "Date", r !! "Steam Total Traffic", r !! "GA KR Click"))
      (buildSeries sample_engine [february_row; january_row])
  = [ (Some (VStr "2024-01-15"), Some (VNum (Prim2SF 0%float)), Some (VNum (Prim2SF 0%float)));
      (Some (VStr "2024-02-01"), Some (VNum (Prim2SF 1000%float)), Some (VNum (Prim2SF 50%float))) ].
Proof. vm_compute. reflexivity. Qed.

(** ** Region columns *)

(** In the newer component every record holds, for each of the four
    region codes, a number in each of the six region columns. *)
Lemma processRow_region_complete (E : engine) (row : object) (region k : string) :
  region ∈ region_codes -> k ∈ region_columns region ->
  exists n, processRow E row !! k = Some (VNum n).
Proof.
  intros Hr Hk.
  assert (Hnum : k ∈ numeric_columns).
  { unfold region_codes in Hr.
    repeat (apply elem_of_cons in Hr as [->|Hr]); [..|apply elem_of_nil in Hr; contradiction];
      unfold region_columns in Hk;
      repeat (apply elem_of_cons in Hk as [->|Hk]);
      try (apply elem_of_nil in Hk; contradiction); column_in_list. }
  rewrite (processRow_numeric E row k Hnum).
  destruct (cleanNumber_with_total won_dash_damaged (get row k)) as (n & Hn & _).
  exists n. f_equal. exact Hn.
Qed.

(** The records of the older component hold nothing but the date, the
    core metrics and the two click columns of the selected region. *)
Lemma legacy_processRow_other (region : string) (row : object) (k : string) :
  k ∉ legacy_columns region -> Legacy.processRow region row !! k = None.
Proof.
  intros Hk. unfold Legacy.processRow, assign.
  repeat (rewrite lookup_insert_ne
            by (intros <-; apply Hk; unfold legacy_columns, core_columns; cbn [app];
                repeat first [apply list_elem_of_here | apply list_elem_of_further])).
  apply lookup_empty.
Qed.

(** The older component on a decoded sheet of at least one row: the
    mapped rows are stored, in the order of the sheet, and the error
    banner is cleared. *)
Lemma legacy_upload_sheet (E : engine) (name sheet : string) (rows : list object) (st : state) :
  rows <> [] ->
  exists text,
    Legacy.upload_file E (File name (Sheet sheet rows)) st
    = Ok {| data := map (Legacy.processRow (selectedRegion st)) rows; error := "";
            selectedRegion := selectedRegion st; debugInfo := text;
            isLoading := isLoading st |}.
Proof.
  intros Hne. unfold Legacy.upload_file, Legacy.handleFileUpload, Legacy.process.
  set (jsonData := map (Legacy.processRow (selectedRegion st)) rows).
  assert (Hfirst : exists first, jsonData !! 0%nat = Some first)
    by (destruct rows; [contradiction|eexists; reflexivity]).
  assert (Hlast : exists last', last jsonData = Some last').
  { destruct (last jsonData) eqn:Hl; [eauto|]. apply last_None in Hl.
    destruct rows; [contradiction|discriminate]. }
  destruct Hfirst as [first ->], Hlast as [last' ->].
  cbn [read_prop app render apply_update set_to append_line
       data error selectedRegion debugInfo isLoading].
  eexists. reflexivity.
Qed.

(** C3.  The older component reads, of the region columns, only the two
    click columns of the region selected when the file is uploaded: with
    [KR] selected, the record of a row lacks the click column of [EN] and
    the cost column of [KR] itself, which the record of the newer
    component holds. *)
Theorem legacy_record_lacks_region_columns (E : engine) (row : object) :
  Legacy.processRow "KR" row !! "GA EN Click" = None
  /\ Legacy.processRow "KR" row !! "X KR Cost" = None
  /\ (exists text,
        Legacy.upload_file E (File "metrics.xlsx" (Sheet "Sheet1" [english_row])) initial_state
        = Ok {| data := [Legacy.processRow "KR" english_row]; error := "";
                selectedRegion := "KR"; debugInfo := text; isLoading := false |})
  /\ processRow E english_row !! "GA EN Click" = Some (VNum (Prim2SF 7%float))
  /\ processRow E english_row !! "X KR Cost" = Some (VNum (Prim2SF 1500%float)).
Proof.
  split; [apply legacy_processRow_other; column_in_list|].
  split; [apply legacy_processRow_other; column_in_list|].
  split; [apply (legacy_upload_sheet E _ _ [english_row] initial_state); discriminate|].
  rewrite !(processRow_numeric E english_row) by column_in_list.
  split; vm_compute; reflexivity.
Qed.

(** * Further properties of the component *)

(** ** The number normaliser *)

Section CleanNumberMore.

(** On text the guards of [cleanNumber] add nothing: the result is what
    the last branch computes from the stripped text. *)
Lemma cleanNumber_with_text placeholder s :
  strip placeholder = "-" ->
  cleanNumber_with placeholder (VStr s)
  = or_else (VNum (parseFloat (strip s))) (num 0).
Proof.
  intros Hp. unfold cleanNumber_with.
  destruct (falsy (VStr s)) eqn:Hf.
  { destruct s; [reflexivity|discriminate]. }
  destruct (bool_decide_reflect (VStr s = VStr "-")) as [[= ->]|_]; [reflexivity|].
  destruct (bool_decide_reflect (VStr s = VStr placeholder)) as [[= ->]|_]; [|reflexivity].
  simpl. rewrite Hp. reflexivity.
Qed.

(** The result is [+0] or a number that is neither zero nor [NaN]. *)
Lemma cleanNumber_with_clean placeholder v :
  exists n, cleanNumber_with placeholder v = VNum n
            /\ (n = pos_zero \/ truthy (VNum n) = true).
Proof.
  unfold cleanNumber_with.
  destruct (falsy v || bool_decide (v = VStr "-")
            || bool_decide (v = VStr placeholder)) eqn:Hguard.
  { exists pos_zero. split; [reflexivity|left; reflexivity]. }
  apply orb_false_iff in Hguard as [Hguard _].
  apply orb_false_iff in Hguard as [Hfalsy _].
  apply negb_false_iff in Hfalsy.
  destruct v as [| |b|x|s]; try (exists pos_zero; split; [reflexivity|left; reflexivity]).
  - exists x. split; [reflexivity|right; exact Hfalsy].
  - unfold or_else. destruct (truthy (VNum (parseFloat (strip s)))) eqn:Ht.
    + exists (parseFloat (strip s)). split; [reflexivity|right; exact Ht].
    + exists pos_zero. split; [reflexivity|left; reflexivity].
Qed.

Lemma cleanNumber_with_of_clean placeholder n :
  n = pos_zero \/ truthy (VNum n) = true ->
  cleanNumber_with placeholder (VNum n) = VNum n
  /\ or_else (VNum n) (num 0) = VNum n.
Proof.
  intros [->|Ht]; [split; reflexivity|].
  unfold cleanNumber_with, falsy, or_else. rewrite Ht. simpl negb.
  rewrite !bool_decide_eq_false_2 by discriminate. split; reflexivity.
Qed.

Lemma strip_won_dash : strip won_dash = "-" /\ strip won_dash_damaged = "-".
Proof. split; reflexivity. Qed.

End CleanNumberMore.

(** X1.  The two versions of [cleanNumber] agree on every value: the
    placeholder they compare against (the won sign, or its damaged
    encoding in the newer file) makes no difference. *)
Theorem cleanNumber_versions_agree (v : value) : Legacy.cleanNumber v = cleanNumber v.
Proof.
  destruct v as [| |b|x|s]; try reflexivity.
  unfold Legacy.cleanNumber, cleanNumber.
  rewrite !cleanNumber_with_text by apply strip_won_dash. reflexivity.
Qed.

(** X2.  [cleanNumber] is idempotent, and its result is never [NaN] and
    never [-0]: a number it has produced passes through it unchanged. *)
Theorem cleanNumber_idempotent (v : value) :
  cleanNumber (cleanNumber v) = cleanNumber v
  /\ exists n, cleanNumber v = VNum n /\ is_nan n = false /\ is_neg_zero n = false.
Proof.
  destruct (cleanNumber_with_clean won_dash_damaged v) as (n & Hn & Hclean).
  unfold cleanNumber. rewrite Hn. split.
  - apply cleanNumber_with_of_clean, Hclean.
  - exists n. split; [reflexivity|].
    destruct Hclean as [->|Ht]; [split; reflexivity|].
    destruct n as [[|]|[|]| |]; try discriminate Ht; split; reflexivity.
Qed.

(** X3.  On text [cleanNumber] reads nothing but the digits, dots and
    dashes: two texts that are equal once every other character is
    removed give the same number. *)
Theorem cleanNumber_reads_stripped_text (s1 s2 : string) :
  strip s1 = strip s2 -> cleanNumber (VStr s1) = cleanNumber (VStr s2).
Proof.
  intros H. unfold cleanNumber.
  rewrite !cleanNumber_with_text by apply strip_won_dash. rewrite H. reflexivity.
Qed.

Lemma cleanNumber_reads_stripped_text_witness :
  strip "KRW 1,234.50 (est.)" = strip "1234.50."
  /\ cleanNumber (VStr "KRW 1,234.50 (est.)") = cleanNumber (VStr "1234.50.").
Proof.
  split; [reflexivity|]. apply cleanNumber_reads_stripped_text. reflexivity.
Defined.

(** ** Whole numbers *)

Lemma digit_not_other c :
  is_digit c = true ->
  is_space c = false /\ Ascii.eqb c "-" = false /\ Ascii.eqb c "+" = false
  /\ Ascii.eqb "I" c = false /\ Ascii.eqb c "." = false.
Proof.
  intros Hc. repeat split.
  - unfold is_digit in Hc. unfold is_space. lia.
  - destruct (Ascii.eqb_spec c "-") as [->|_]; [discriminate|reflexivity].
  - destruct (Ascii.eqb_spec c "+") as [->|_]; [discriminate|reflexivity].
  - destruct (Ascii.eqb_spec "I" c) as [<-|_]; [discriminate|reflexivity].
  - destruct (Ascii.eqb_spec c ".") as [->|_]; [discriminate|reflexivity].
Qed.

Section IntegerFacts.

Lemma binade_integer n : 0 < n -> binade n 1 = Z.log2 n.
Proof.
  intros Hn. unfold binade. change (Z.log2 1) with 0. rewrite Z.sub_0_r.
  pose proof (Z.log2_nonneg n) as H0.
  destruct (Z.leb_spec 0 (Z.log2 n)) as [_|]; [|lia].
  pose proof (Z.log2_spec n Hn) as [Hlo _].
  destruct (Z.ltb_spec n (1 * 2 ^ Z.log2 n)); [lia|reflexivity].
Qed.

(** A positive integer below [2^53] is a binary64 value: rounding it
    changes nothing. *)
Lemma round_binary64_integer s n :
  0 < n < 2 ^ 53 ->
  integer_of (round_binary64 s n 1) = Some ((if s then -1 else 1) * n).
Proof.
  intros [Hn Hlt]. unfold round_binary64.
  destruct (Z.leb_spec n 0) as [|_]; [lia|].
  assert (Hthr : 2 ^ 53 < overflow_threshold) by (apply Z.ltb_lt; vm_compute; reflexivity).
  destruct (Z.leb_spec (overflow_threshold * 1) n) as [|_]; [lia|].
  rewrite (binade_integer n Hn).
  pose proof (Z.log2_nonneg n) as H0.
  pose proof (Z.log2_spec n Hn) as [Hlo Hhi].
  assert (Hl : Z.log2 n < 53) by (apply Z.log2_lt_pow2; lia).
  set (l := Z.log2 n) in *.
  rewrite Z.max_l by lia. cbv zeta.
  destruct (Z.leb_spec 0 (l - 52)) as [He|He].
  - (* the integer has 53 bits *)
    assert (l = 52) as Hl52 by lia. rewrite Hl52. change (52 - 52) with 0.
    change (2 ^ 0) with 1. rewrite !Z.mul_1_r, Z.div_1_r, Z.mod_1_r.
    change (2 * 0 ?= 1) with Lt. cbv iota.
    destruct n as [|p|p]; try lia.
    destruct (Z.eqb_spec (Z.pos p) (2 ^ 53)) as [|_]; [lia|].
    cbn [integer_of]. change (0 <=? 0) with true. cbv iota.
    change (2 ^ 0) with 1. rewrite Z.mul_1_r. reflexivity.
  - (* fewer bits: the mantissa is the integer shifted left *)
    assert (Hpos : 0 < 2 ^ (- (l - 52))) by (apply Z.pow_pos_nonneg; lia).
    rewrite Z.div_1_r, Z.mod_1_r. change (2 * 0 ?= 1) with Lt. cbv iota.
    assert (Hm : n * 2 ^ (- (l - 52)) < 2 ^ 53).
    { replace 53 with ((l + 1) + (- (l - 52))) by lia.
      rewrite Z.pow_add_r by lia. apply Z.mul_lt_mono_pos_r; [exact Hpos|].
      replace (l + 1) with (Z.succ l) by lia. exact Hhi. }
    destruct (n * 2 ^ (- (l - 52))) as [|p|p] eqn:Hp; try nia.
    destruct (Z.eqb_spec (Z.pos p) (2 ^ 53)) as [|_]; [lia|].
    cbn [integer_of].
    destruct (Z.leb_spec 0 (l - 52)) as [|_]; [lia|].
    rewrite <- Hp, Z.mod_mul, Z.div_mul by lia.
    change (0 =? 0) with true. reflexivity.
Qed.

Lemma of_decimal_integer s n :
  0 <= n < 2 ^ 53 ->
  integer_of (of_decimal s n 0) = Some ((if s then -1 else 1) * n).
Proof.
  intros [H0 Hlt]. unfold of_decimal. change (0 <=? 0) with true. cbv iota.
  change (10 ^ 0) with 1. rewrite Z.mul_1_r.
  destruct (Z.eq_dec n 0) as [->|Hn].
  - destruct s; reflexivity.
  - apply round_binary64_integer. lia.
Qed.

Lemma take_digits_all_digits d : forall acc k,
  all_chars is_digit d = true ->
  exists n, take_digits acc k d = (n, (k + String.length d)%nat, "").
Proof.
  induction d as [|c d IH]; intros acc k Hd; simpl.
  - exists acc. rewrite Nat.add_0_r. reflexivity.
  - simpl in Hd. apply andb_true_iff in Hd as [Hc Hd]. rewrite Hc.
    destruct (IH (10 * acc + digit_val c) (S k) Hd) as [n ->].
    exists n. replace (k + S (String.length d))%nat with (S k + String.length d)%nat by lia.
    reflexivity.
Qed.

(** [parseFloat] on a numeral of digits with an optional minus sign. *)
Lemma parseFloat_integer (neg : bool) d :
  d <> "" -> all_chars is_digit d = true ->
  parseFloat ((if neg then "-" else "") +:+ d) = of_decimal neg (digits_value d) 0.
Proof.
  intros Hne Hd. destruct d as [|c d]; [contradiction|].
  pose proof Hd as Hcd. simpl in Hcd. apply andb_true_iff in Hcd as [Hc _].
  destruct (digit_not_other c Hc) as (Hsp & Hminus & Hplus & HI & Hdot).
  assert (Hsign : take_sign (skip_spaces ((if neg then "-" else "") +:+ String c d))
                  = (neg, String c d)).
  { destruct neg; [reflexivity|].
    change ("" +:+ String c d) with (String c d).
    cbn [skip_spaces]. rewrite Hsp. cbn [take_sign]. rewrite Hminus, Hplus. reflexivity. }
  unfold parseFloat. rewrite Hsign.
  change (starts_with "Infinity" (String c d))
    with (Ascii.eqb "I" c && starts_with "nfinity" d).
  rewrite HI. cbn [andb].
  unfold digits_value.
  destruct (take_digits_all_digits (String c d) 0 0 Hd) as [n ->].
  reflexivity.
Qed.

End IntegerFacts.

(** X4.  Whole numbers are read exactly: when the digits, dots and
    dashes of a text are a numeral of digits, with or without a leading
    minus sign, whose value is below [2^53], [cleanNumber] returns
    exactly that integer, whatever separators, currency signs or spaces
    the text holds besides. *)
Theorem cleanNumber_integer_exact (s d : string) (neg : bool) :
  strip s = (if neg then "-" else "") +:+ d ->
  d <> "" -> all_chars is_digit d = true -> digits_value d < 2 ^ 53 ->
  exists x, cleanNumber (VStr s) = VNum x
            /\ integer_of x = Some ((if neg then -1 else 1) * digits_value d).
Proof.
  intros Hs Hne Hd Hlt.
  unfold cleanNumber. rewrite cleanNumber_with_text by apply strip_won_dash.
  rewrite Hs, (parseFloat_integer neg d Hne Hd).
  assert (H0 : 0 <= digits_value d).
  { unfold digits_value. destruct (take_digits 0 0 d) as [[n k] r] eqn:Htd.
    apply take_digits_spec in Htd as (j & _ & Hn & _).
    assert (0 < 10 ^ Z.of_nat j) by (apply Z.pow_pos_nonneg; lia). lia. }
  pose proof (of_decimal_integer neg (digits_value d) (conj H0 Hlt)) as Hint.
  unfold or_else. destruct (truthy (VNum (of_decimal neg (digits_value d) 0))) eqn:Ht.
  - eexists. split; [reflexivity|exact Hint].
  - exists pos_zero. split; [reflexivity|].
    destruct (of_decimal neg (digits_value d) 0) as [sg|sg| |sg m e]; try discriminate.
    simpl in Hint. simpl. rewrite <- Hint. reflexivity.
Qed.

Lemma cleanNumber_integer_exact_witness :
  strip "- ₩ 9,007,199,254,740,991" = "-" +:+ "9007199254740991"
  /\ exists x, cleanNumber (VStr "- ₩ 9,007,199,254,740,991") = VNum x
               /\ integer_of x = Some (-9007199254740991).
Proof.
  split; [reflexivity|].
  apply (cleanNumber_integer_exact _ "9007199254740991" true);
    [reflexivity|discriminate|reflexivity|reflexivity].
Defined.

(** ** Numerals at the head of stripped text *)

Section NumeralFacts.









End NumeralFacts.

(** ** The row mapper on every row *)




(** ** The date normaliser *)

Section FormatDateMore.

Lemma includes_app c a b : includes c (a +:+ b) = includes c a || includes c b.
Proof. induction a as [|x a IH]; simpl; [reflexivity|]. rewrite IH. apply orb_assoc. Qed.

Lemma includes_dash_isoDate t : includes "-" (isoDate t) = true.
Proof.
  unfold isoDate. destruct (civil_from_days (t / msPerDay)) as [[y m] d].
  rewrite includes_app. apply orb_true_iff. right. reflexivity.
Qed.

(** The three shapes of a result of [formatDate]. *)
Lemma formatDate_result (E : engine) v :
  formatDate E v = VStr ""
  \/ formatDate E v = v
  \/ exists t, Date_new E v = Some t /\ formatDate E v = VStr (isoDate t).
Proof.
  unfold formatDate. destruct (falsy v); [left; reflexivity|].
  destruct (match v with VStr s => includes "-" s | _ => false end);
    [right; left; reflexivity|].
  destruct (Date_new E v) as [t|]; simpl; [|right; left; reflexivity].
  right; right. exists t. rewrite before_T_toISOString. split; reflexivity.
Qed.

End FormatDateMore.

(** X5.  [formatDate] is idempotent: its result, whether the empty text,
    the untouched input or a rendered date, passes through it unchanged,
    without a second date conversion. *)
Theorem formatDate_idempotent (E : engine) (v : value) :
  formatDate E (formatDate E v) = formatDate E v.
Proof.
  destruct (formatDate_result E v) as [H|[H|(t & _ & H)]].
  - rewrite H. reflexivity.
  - rewrite H. exact H.
  - rewrite H. unfold formatDate, falsy.
    rewrite (includes_not_empty _ _ (includes_dash_isoDate t)), includes_dash_isoDate.
    reflexivity.
Qed.

(** ** Uploads and what the component shows *)

Section UploadMore.
Context (E : engine).

(** What an upload that renders can have done to the state. *)
Lemma upload_file_frame u st st' :
  upload_file E u st = Ok st' ->
  selectedRegion st' = selectedRegion st
  /\ (error st' = error st \/ exists msg, error st' = "Error processing file: " +:+ msg)
  /\ (u <> NoFile -> isLoading st' = false)
  /\ (u = NoFile -> isLoading st' = isLoading st /\ data st' = data st).
Proof.
  destruct u as [|name [msg|sheet msg|sheet rows]].
  - intros [= <-]. repeat split; auto. intros H; contradiction.
  - intros [= <-]. repeat split; eauto; discriminate.
  - intros [= <-]. repeat split; eauto; discriminate.
  - destruct rows as [|row rows]; [discriminate|].
    destruct (upload_sheet E name sheet (row :: rows) st) as [text ->]; [discriminate|].
    intros [= <-]. repeat split; auto; discriminate.
Qed.

Lemma truthy_error_message msg : truthy (VStr ("Error processing file: " +:+ msg)) = true.
Proof. reflexivity. Qed.

End UploadMore.

(** X6.  In the newer component nothing hides the error banner: once an
    error message is set, every later upload that renders, successful or
    not, leaves the banner shown.  In the older component a successful
    upload clears it. *)
Theorem error_banner_is_never_cleared (E : engine) (st : state) :
  (forall u st', upload_file E u st = Ok st' ->
                 error_banner (main_view st) = true ->
                 error_banner (main_view st') = true)
  /\ (forall name sheet rows st',
        rows <> [] ->
        Legacy.upload_file E (File name (Sheet sheet rows)) st = Ok st' ->
        error_banner (main_view st') = false).
Proof.
  split.
  - intros u st' Hup Hshown.
    destruct (upload_file_frame E u st st' Hup) as (_ & [Herr|[msg Herr]] & _).
    + unfold main_view, error_banner in *. rewrite Herr. exact Hshown.
    + unfold main_view, error_banner. rewrite Herr. reflexivity.
  - intros name sheet rows st' Hne Hup.
    destruct (legacy_upload_sheet E name sheet rows st Hne) as [text Hok].
    rewrite Hok in Hup. injection Hup as <-. reflexivity.
Qed.

Lemma error_banner_is_never_cleared_witness :
  error_banner (main_view failed_state) = true
  /\ (exists st', upload_file sample_engine (File "good.xlsx" (Sheet "S" [january_row]))
                    failed_state = Ok st'
                  /\ error_banner (main_view st') = true)
  /\ (exists st', Legacy.upload_file sample_engine
                    (File "good.xlsx" (Sheet "S" [january_row])) failed_state = Ok st'
                  /\ error_banner (main_view st') = false).
Proof.
  assert (Hne : [january_row] <> []) by discriminate.
  destruct (error_banner_is_never_cleared sample_engine failed_state) as [Hnew Hold].
  split; [reflexivity|]. split.
  - destruct (upload_sheet sample_engine "good.xlsx" "S" [january_row] failed_state Hne)
      as [text Hok].
    eexists. split; [exact Hok|]. apply (Hnew _ _ Hok). reflexivity.
  - destruct (legacy_upload_sheet sample_engine "good.xlsx" "S" [january_row] failed_state Hne)
      as [text Hok].
    eexists. split; [exact Hok|]. exact (Hold _ _ _ _ Hne Hok).
Defined.

(** X7.  An upload of a file that renders never leaves the loading
    banner on and never changes the selected region, whether the decode
    failed or succeeded; with no file chosen only the diagnostic text
    changes. *)
Theorem upload_clears_loading (E : engine) (u : upload) (st st' : state) :
  upload_file E u st = Ok st' ->
  selectedRegion st' = selectedRegion st
  /\ match u with
     | File _ _ => loading_banner (main_view st') = false
     | NoFile => st' = {| data := data st; error := error st;
                          selectedRegion := selectedRegion st;
                          debugInfo := "No file selected"; isLoading := isLoading st |}
     end.
Proof.
  intros Hup. destruct (upload_file_frame E u st st' Hup) as (Hregion & _ & Hload & _).
  split; [exact Hregion|]. destruct u as [|name content].
  - injection Hup as <-. reflexivity.
  - apply Hload. discriminate.
Qed.

Lemma upload_clears_loading_witness :
  exists st',
    upload_file sample_engine (File "good.xlsx" (Sheet "S" [january_row]))
      (select_region "JP" initial_state) = Ok st'
    /\ selectedRegion st' = selectedRegion (select_region "JP" initial_state)
    /\ loading_banner (main_view st') = false.
Proof.
  destruct (upload_sheet sample_engine "good.xlsx" "S" [january_row]
              (select_region "JP" initial_state)) as [text Hok]; [discriminate|].
  eexists. split; [exact Hok|].
  exact (upload_clears_loading sample_engine _ _ _ Hok).
Defined.

(** ** The charts and the tooltip *)

Ltac each_key H :=
  repeat (apply elem_of_cons in H as [->|H]); [..|apply elem_of_nil in H; contradiction].

Section ChartFacts.
Context (E : engine).

(** Every line of every chart plots a column that the row mapper reads
    with [cleanNumber]. *)
Lemma chart_keys_numeric region chart key :
  region ∈ region_codes -> chart ∈ charts region -> key ∈ chart -> key ∈ numeric_columns.
Proof.
  intros Hr Hc Hk. unfold region_codes in Hr. unfold charts in Hc.
  each_key Hr; each_key Hc;
    unfold traffic_chart, steam_sources_chart, wishlist_chart, combined_chart in Hk;
    each_key Hk; column_in_list.
Qed.

(** A numeric column of a record of the series. *)
Lemma series_numeric rows record key :
  record ∈ buildSeries E rows -> key ∈ numeric_columns ->
  exists n, record !! key = Some (VNum n) /\ (n = pos_zero \/ truthy (VNum n) = true).
Proof.
  intros Hrec Hkey. rewrite buildSeries_Permutation in Hrec.
  apply list_elem_of_In, in_map_iff in Hrec as (row & <- & _).
  rewrite (processRow_numeric E row key Hkey).
  destruct (cleanNumber_with_clean won_dash_damaged (get row key)) as (n & Hn & Hclean).
  exists n. split; [f_equal; exact Hn|exact Hclean].
Qed.

Lemma clean_not_nan n : n = pos_zero \/ truthy (VNum n) = true -> is_nan n = false.
Proof. intros [->|H]; [reflexivity|]. destruct n; try reflexivity; discriminate. Qed.

(** What a successful upload of a sheet has stored. *)
Lemma upload_sheet_data name sheet rows st st' :
  upload_file E (File name (Sheet sheet rows)) st = Ok st' ->
  rows <> [] /\ data st' = buildSeries E rows.
Proof.
  intros Hup. pose proof (series_of_upload E name sheet rows st) as Hs.
  rewrite Hup in Hs. destruct rows; [discriminate|].
  injection Hs as ->. split; [discriminate|reflexivity].
Qed.

Lemma includes_text_app needle a s :
  includes_text needle s = true -> includes_text needle (a +:+ s) = true.
Proof.
  intros H. induction a as [|c a IH]; [exact H|].
  change (includes_text needle (String c a +:+ s))
    with (starts_with needle (String c (a +:+ s)) || includes_text needle (a +:+ s)).
  rewrite IH. apply orb_true_r.
Qed.

End ChartFacts.

(** X8.  After a successful upload the chart section is shown and,
    whichever region is then chosen in the selector, every line of every
    chart finds at every record of the series a number that is not NaN:
    no chart is left without data by a change of region. *)
Theorem charts_have_numbers (E : engine) (name sheet : string) (rows : list object)
    (st st' : state) (region : string) :
  upload_file E (File name (Sheet sheet rows)) st = Ok st' ->
  region ∈ region_codes ->
  let shown := select_region region st' in
  chart_section (main_view shown) = true
  /\ upload_prompt (main_view shown) = false
  /\ forall chart key record,
       chart ∈ charts (selectedRegion shown) -> key ∈ chart -> record ∈ data shown ->
       exists n, record !! key = Some (VNum n) /\ is_nan n = false.
Proof.
  intros Hup Hregion shown.
  destruct (upload_sheet_data E name sheet rows st st' Hup) as [Hne Hdata].
  assert (Hlen : (0 < length (data shown))%nat).
  { unfold shown, select_region. cbn [data]. rewrite Hdata, buildSeries_length.
    destruct rows; [contradiction|simpl; lia]. }
  split; [|split].
  - unfold main_view; cbn [chart_section]. apply Nat.ltb_lt, Hlen.
  - unfold main_view; cbn [upload_prompt].
    destruct (length (data shown)); [lia|reflexivity].
  - intros chart key record Hchart Hkey Hrec.
    unfold shown, select_region in Hchart, Hrec. cbn [selectedRegion data] in Hchart, Hrec.
    rewrite Hdata in Hrec.
    destruct (series_numeric E rows record key Hrec
                (chart_keys_numeric region chart key Hregion Hchart Hkey))
      as (n & Hn & Hclean).
    exists n. split; [exact Hn|apply clean_not_nan, Hclean].
Qed.

Lemma charts_have_numbers_witness :
  exists st',
    upload_file sample_engine (File "good.xlsx" (Sheet "S" [january_row])) initial_state = Ok st'
    /\ "JP" ∈ region_codes
    /\ chart_section (main_view (select_region "JP" st')) = true
    /\ forall record, record ∈ data st' ->
         exists n, record !! "GA JP Click" = Some (VNum n) /\ is_nan n = false.
Proof.
  destruct (upload_sheet sample_engine "good.xlsx" "S" [january_row] initial_state)
    as [text Hok]; [discriminate|].
  assert (Hjp : "JP" ∈ region_codes) by column_in_list.
  eexists. split; [exact Hok|]. split; [exact Hjp|].
  destruct (charts_have_numbers sample_engine _ _ _ _ _ "JP" Hok Hjp) as (Hshown & _ & Hkeys).
  split; [exact Hshown|].
  intros record Hrec. apply (Hkeys (traffic_chart "JP")).
  - apply list_elem_of_here.
  - unfold traffic_chart. column_in_list.
  - exact Hrec.
Defined.

(** X9.  The tooltip never formats a plotted value as currency: no line
    of any chart has a [dataKey] containing "Cost", for any region of the
    selector, so the test in [CustomTooltip] always picks [formatNumber];
    the cost columns, which would pick [formatCurrency], are stored but
    never plotted. *)
Theorem tooltip_never_currency (region : string) :
  (region ∈ region_codes ->
   forall chart key, chart ∈ charts region -> key ∈ chart -> tooltip_formatter key = Plain)
  /\ tooltip_formatter ("GA " +:+ region +:+ " Cost") = Currency
  /\ tooltip_formatter ("X " +:+ region +:+ " Cost") = Currency.
Proof.
  split; [|split].
  - intros Hr chart key Hc Hk. unfold region_codes in Hr. unfold charts in Hc.
    each_key Hr; each_key Hc;
      unfold traffic_chart, steam_sources_chart, wishlist_chart, combined_chart in Hk;
      each_key Hk; reflexivity.
  - unfold tooltip_formatter.
    rewrite (includes_text_app "Cost" "GA " _ (includes_text_app "Cost" region " Cost" eq_refl)).
    reflexivity.
  - unfold tooltip_formatter.
    rewrite (includes_text_app "Cost" "X " _ (includes_text_app "Cost" region " Cost" eq_refl)).
    reflexivity.
Qed.

Lemma tooltip_never_currency_witness :
  "EN" ∈ region_codes
  /\ tooltip_formatter "GA EN Click" = Plain
  /\ tooltip_formatter "GA EN Cost" = Currency.
Proof.
  assert (Hen : "EN" ∈ region_codes) by column_in_list.
  destruct (tooltip_never_currency "EN") as (Hplain & Hcost & _).
  split; [exact Hen|]. split; [|exact Hcost].
  apply (Hplain Hen (traffic_chart "EN")).
  - apply list_elem_of_here.
  - unfold traffic_chart. column_in_list.
Defined.

(** ** The axis domain *)

(** *** The order of binary64 numbers *)

Ltac order_cases :=
  repeat match goal with
         | H : context [Pos.compare_cont Eq ?a ?b] |- _ =>
             change (Pos.compare_cont Eq a b) with (Pos.compare a b) in H
         | |- context [Pos.compare_cont Eq ?a ?b] =>
             change (Pos.compare_cont Eq a b) with (Pos.compare a b)
         end;
  repeat match goal with
         | H : context [Z.compare ?a ?b] |- _ => destruct (Z.compare_spec a b)
         | |- context [Z.compare ?a ?b] => destruct (Z.compare_spec a b)
         | H : context [Pos.compare ?a ?b] |- _ => destruct (Pos.compare_spec a b)
         | |- context [Pos.compare ?a ?b] => destruct (Pos.compare_spec a b)
         end;
  simpl in *; try discriminate; try reflexivity; try lia.

Section FloatOrder.

Lemma SFleb_trans x y z : SFleb x y = true -> SFleb y z = true -> SFleb x z = true.
Proof.
  unfold SFleb, SFcompare.
  destruct x as [sx|sx| |sx mx ex], y as [sy|sy| |sy my ey], z as [sz|sz| |sz mz ez];
    try discriminate; try reflexivity;
    repeat match goal with s : bool |- _ => destruct s end;
    try discriminate; try reflexivity; intros H1 H2; order_cases.
Qed.

Lemma SFltb_SFleb x y : SFltb x y = true -> SFleb x y = true.
Proof.
  unfold SFltb, SFleb. destruct (SFcompare x y) as [[| |]|]; try discriminate; reflexivity.
Qed.

Lemma SFleb_total x y :
  is_nan x = false -> is_nan y = false -> SFltb x y = false -> SFleb y x = true.
Proof.
  unfold SFleb, SFltb, SFcompare.
  destruct x as [sx|sx| |sx mx ex], y as [sy|sy| |sy my ey];
    try discriminate; try reflexivity;
    repeat match goal with s : bool |- _ => destruct s end;
    try discriminate; try reflexivity; intros _ _ H; order_cases.
Qed.

Lemma SFleb_refl x : is_nan x = false -> SFleb x x = true.
Proof.
  unfold SFleb, SFcompare.
  destruct x as [sx|sx| |sx mx ex]; try discriminate; try reflexivity;
    destruct sx; try reflexivity; intros _; order_cases.
Qed.

Lemma SFleb_infinity x : is_nan x = false -> SFleb (S754_infinity false) x = true ->
  x = S754_infinity false.
Proof. destruct x as [s|[]| |s m e]; try discriminate; reflexivity. Qed.

Lemma SFleb_neg_infinity x : is_nan x = false -> SFleb x (S754_infinity true) = true ->
  x = S754_infinity true.
Proof. destruct x as [s|[]| |[] m e]; try discriminate; reflexivity. Qed.

End FloatOrder.

(** *** The product [maxValue * 1.2] is a number *)

Section FloatProduct.

Lemma iter_pos_invariant {A} (P : A -> Prop) (f : A -> A) :
  (forall x, P x -> P (f x)) -> forall p x, P x -> P (SpecFloat.iter_pos f p x).
Proof.
  intros Hf. induction p as [p IH|p IH|]; intros x Hx; simpl; auto.
Qed.

Lemma shr_1_nonneg r : 0 <= shr_m r -> 0 <= shr_m (shr_1 r).
Proof.
  destruct r as [m rr ss]. simpl. intros Hm.
  destruct m as [|[p|p|]|p]; simpl; lia.
Qed.

Lemma shr_fexp_nonneg m e l :
  0 <= m -> 0 <= shr_m (fst (shr_fexp prec emax m e l)).
Proof.
  intros Hm. unfold shr_fexp, shr.
  assert (H0 : 0 <= shr_m (shr_record_of_loc m l)) by (destruct l as [|[]]; exact Hm).
  destruct (fexp prec emax (Zdigits2 m + e) - e) as [|p|p]; simpl; try exact H0.
  apply iter_pos_invariant; [apply shr_1_nonneg|exact H0].
Qed.

Lemma round_nearest_even_nonneg m l : 0 <= m -> 0 <= round_nearest_even m l.
Proof.
  intros Hm. unfold round_nearest_even. destruct l as [|[]]; try destruct (Z.even m); lia.
Qed.

Lemma binary_round_aux_not_nan s m e l :
  0 <= m -> is_nan (binary_round_aux prec emax s m e l) = false.
Proof.
  intros Hm. unfold binary_round_aux.
  pose proof (shr_fexp_nonneg m e l Hm) as H1.
  destruct (shr_fexp prec emax m e l) as [mrs' e'] eqn:E1. simpl in H1.
  pose proof (shr_fexp_nonneg _ e' loc_Exact
                (round_nearest_even_nonneg _ (loc_of_shr_record mrs') H1)) as H2.
  destruct (shr_fexp prec emax (round_nearest_even (shr_m mrs') (loc_of_shr_record mrs'))
              e' loc_Exact) as [mrs'' e''] eqn:E2. simpl in H2.
  destruct (shr_m mrs'') as [|p|p]; [reflexivity| |lia].
  destruct (e'' <=? emax - prec); reflexivity.
Qed.

Lemma SFmul_one_point_two_not_nan x :
  is_nan x = false -> is_nan (SFmul prec emax x one_point_two) = false.
Proof.
  destruct x as [s|s| |s m e]; try discriminate; intros _; try reflexivity.
  unfold SFmul, one_point_two. apply binary_round_aux_not_nan. lia.
Qed.

End FloatProduct.

(** *** [Math.min] and [Math.max] over numbers none of which is NaN *)

Section MinMax.

Lemma min_step_spec a x :
  is_nan a = false -> is_nan x = false ->
  is_nan (min_step a x) = false
  /\ SFleb (min_step a x) a = true /\ SFleb (min_step a x) x = true
  /\ (min_step a x = a \/ min_step a x = x).
Proof.
  intros Ha Hx. unfold min_step. rewrite Ha, Hx. cbn [orb].
  destruct (is_neg_zero x && is_pos_zero a) eqn:Hz; cbn [orb].
  { apply andb_true_iff in Hz as [H1 H2].
    destruct x as [[]| | |]; try discriminate. destruct a as [[]| | |]; try discriminate.
    repeat split; auto. }
  destruct (SFltb x a) eqn:Hlt.
  - repeat split; auto using SFltb_SFleb, SFleb_refl.
  - repeat split; auto using SFleb_total, SFleb_refl.
Qed.

Lemma max_step_spec a x :
  is_nan a = false -> is_nan x = false ->
  is_nan (max_step a x) = false
  /\ SFleb a (max_step a x) = true /\ SFleb x (max_step a x) = true
  /\ (max_step a x = a \/ max_step a x = x).
Proof.
  intros Ha Hx. unfold max_step. rewrite Ha, Hx. cbn [orb].
  destruct (is_pos_zero x && is_neg_zero a) eqn:Hz; cbn [orb].
  { apply andb_true_iff in Hz as [H1 H2].
    destruct x as [[]| | |]; try discriminate. destruct a as [[]| | |]; try discriminate.
    repeat split; auto. }
  destruct (SFltb a x) eqn:Hlt.
  - repeat split; auto using SFltb_SFleb, SFleb_refl.
  - repeat split; auto using SFleb_total, SFleb_refl.
Qed.

Lemma foldl_min_step xs : forall a,
  is_nan a = false -> numbers xs ->
  is_nan (foldl min_step a xs) = false
  /\ SFleb (foldl min_step a xs) a = true
  /\ (forall x, x ∈ xs -> SFleb (foldl min_step a xs) x = true)
  /\ (foldl min_step a xs = a \/ foldl min_step a xs ∈ xs).
Proof.
  induction xs as [|x xs IH]; intros a Ha Hxs; cbn [foldl].
  - repeat split; auto using SFleb_refl. intros x Hx. apply elem_of_nil in Hx. contradiction.
  - apply Forall_cons in Hxs as [Hx Hxs].
    destruct (min_step_spec a x Ha Hx) as (Hn & Hle_a & Hle_x & Hin).
    destruct (IH (min_step a x) Hn Hxs) as (Hn' & Hle & Hall & Hin').
    repeat split.
    + exact Hn'.
    + exact (SFleb_trans _ _ _ Hle Hle_a).
    + intros y Hy. apply elem_of_cons in Hy as [->|Hy];
        [exact (SFleb_trans _ _ _ Hle Hle_x)|exact (Hall y Hy)].
    + destruct Hin' as [->|Hin']; [|right; apply elem_of_cons; right; exact Hin'].
      destruct Hin as [->| ->]; [left; reflexivity|right; apply list_elem_of_here].
Qed.

Lemma foldl_max_step xs : forall a,
  is_nan a = false -> numbers xs ->
  is_nan (foldl max_step a xs) = false
  /\ SFleb a (foldl max_step a xs) = true
  /\ (forall x, x ∈ xs -> SFleb x (foldl max_step a xs) = true)
  /\ (foldl max_step a xs = a \/ foldl max_step a xs ∈ xs).
Proof.
  induction xs as [|x xs IH]; intros a Ha Hxs; cbn [foldl].
  - repeat split; auto using SFleb_refl. intros x Hx. apply elem_of_nil in Hx. contradiction.
  - apply Forall_cons in Hxs as [Hx Hxs].
    destruct (max_step_spec a x Ha Hx) as (Hn & Hle_a & Hle_x & Hin).
    destruct (IH (max_step a x) Hn Hxs) as (Hn' & Hle & Hall & Hin').
    repeat split.
    + exact Hn'.
    + exact (SFleb_trans _ _ _ Hle_a Hle).
    + intros y Hy. apply elem_of_cons in Hy as [->|Hy];
        [exact (SFleb_trans _ _ _ Hle_x Hle)|exact (Hall y Hy)].
    + destruct Hin' as [->|Hin']; [|right; apply elem_of_cons; right; exact Hin'].
      destruct Hin as [->| ->]; [left; reflexivity|right; apply list_elem_of_here].
Qed.

(** [Math.min(...xs)]: a number below all of [xs], and one of them
    unless there is none. *)
Lemma Math_min_spec xs :
  numbers xs ->
  is_nan (Math_min xs) = false
  /\ (forall x, x ∈ xs -> SFleb (Math_min xs) x = true)
  /\ (xs <> [] -> Math_min xs ∈ xs).
Proof.
  intros Hxs. destruct (foldl_min_step xs (S754_infinity false) eq_refl Hxs)
    as (Hn & _ & Hall & Hin).
  repeat split; [exact Hn|exact Hall|]. intros Hne.
  destruct Hin as [Heq|Hin]; [|exact Hin].
  destruct xs as [|x xs]; [contradiction|].
  assert (Hx : x ∈ x :: xs) by apply list_elem_of_here.
  pose proof (Hall x Hx) as Hle. unfold Math_min. rewrite Heq in Hle |- *.
  apply Forall_cons in Hxs as [Hnx _].
  rewrite <- (SFleb_infinity x Hnx Hle). exact Hx.
Qed.

Lemma Math_max_spec xs :
  numbers xs ->
  is_nan (Math_max xs) = false
  /\ (forall x, x ∈ xs -> SFleb x (Math_max xs) = true)
  /\ (xs <> [] -> Math_max xs ∈ xs).
Proof.
  intros Hxs. destruct (foldl_max_step xs (S754_infinity true) eq_refl Hxs)
    as (Hn & _ & Hall & Hin).
  repeat split; [exact Hn|exact Hall|]. intros Hne.
  destruct Hin as [Heq|Hin]; [|exact Hin].
  destruct xs as [|x xs]; [contradiction|].
  assert (Hx : x ∈ x :: xs) by apply list_elem_of_here.
  pose proof (Hall x Hx) as Hle. unfold Math_max. rewrite Heq in Hle |- *.
  apply Forall_cons in Hxs as [Hnx _].
  rewrite <- (SFleb_neg_infinity x Hnx Hle). exact Hx.
Qed.

End MinMax.

(** *** The values the domain is computed from *)

Section AxisFacts.

(** [cleanNumber(x) || 0] is a number, never NaN. *)
Lemma clean_or_zero v :
  exists n, or_else (cleanNumber v) (num 0) = VNum n /\ is_nan n = false.
Proof.
  destruct (cleanNumber_with_clean won_dash_damaged v) as (n & Hn & Hclean).
  exists n. unfold cleanNumber. rewrite Hn.
  split; [apply (cleanNumber_with_of_clean won_dash_damaged n Hclean)|].
  destruct Hclean as [->|H]; [reflexivity|]. destruct n; try reflexivity; discriminate.
Qed.

Lemma axis_values_numbers data keys :
  numbers (map as_number (axis_values data keys)).
Proof.
  unfold numbers, axis_values. rewrite Forall_map.
  induction data as [|item data IH]; [constructor|].
  cbn [flat_map]. apply Forall_app. split; [|exact IH].
  destruct keys as [keys|key].
  - clear IH. induction keys as [|key keys IHk]; [constructor|].
    cbn [map]. constructor; [|exact IHk].
    destruct (clean_or_zero (get item key)) as (n & -> & Hn). exact Hn.
  - constructor; [|constructor].
    destruct (clean_or_zero (get item key)) as (n & -> & Hn). exact Hn.
Qed.

(** A number already cleaned passes through [cleanNumber(x) || 0]. *)
Lemma clean_again n :
  n = pos_zero \/ truthy (VNum n) = true ->
  or_else (cleanNumber (VNum n)) (num 0) = VNum n.
Proof.
  intros H. destruct (cleanNumber_with_of_clean won_dash_damaged n H) as [H1 H2].
  unfold cleanNumber. rewrite H1. exact H2.
Qed.

End AxisFacts.

(** X10.  The Y-axis domain is always a pair of numbers, neither of them
    NaN, whatever the records hold (missing fields, text, [null]): every
    plotted field is cleaned again before [Math.min] and [Math.max] see
    it.  Without data the domain is [0, 100]. *)
Theorem axis_domain_numbers (data : list object) (keys : dataKeys) (allowNegative : bool) :
  getYAxisDomain [] keys allowNegative = (num 0, num 100)
  /\ exists lo hi,
       getYAxisDomain data keys allowNegative = (VNum lo, VNum hi)
       /\ is_nan lo = false /\ is_nan hi = false.
Proof.
  split; [reflexivity|].
  destruct data as [|item data].
  - eexists _, _. split; [reflexivity|]. split; reflexivity.
  - pose proof (axis_values_numbers (item :: data) keys) as Hvalues.
    destruct (Math_min_spec _ Hvalues) as (Hmin & _).
    destruct (Math_max_spec _ Hvalues) as (Hmax & _).
    unfold getYAxisDomain. destruct allowNegative.
    + eexists _, _. split; [reflexivity|].
      split; [exact Hmin|apply SFmul_one_point_two_not_nan, Hmax].
    + eexists _, _. split; [reflexivity|].
      split; [reflexivity|apply SFmul_one_point_two_not_nan, Hmax].
Qed.

(** X11.  With data, the lower bound of the domain is the least of the
    plotted values (or 0 when negative values are not allowed) and the
    upper bound is 1.2 times the greatest: no plotted value lies below
    the one or above the other, and both are attained. *)
Theorem axis_domain_bounds (data : list object) (keys : dataKeys) (allowNegative : bool) :
  data <> [] ->
  let values := map as_number (axis_values data keys) in
  exists low top,
    getYAxisDomain data keys allowNegative
    = (if allowNegative then VNum low else num 0, VNum (SFmul prec emax top one_point_two))
    /\ (forall x, x ∈ values -> SFleb low x = true /\ SFleb x top = true)
    /\ (values <> [] -> low ∈ values /\ top ∈ values).
Proof.
  intros Hne values. destruct data as [|item data]; [contradiction|].
  pose proof (axis_values_numbers (item :: data) keys) as Hvalues.
  destruct (Math_min_spec _ Hvalues) as (_ & Hmin & Hmin_in).
  destruct (Math_max_spec _ Hvalues) as (_ & Hmax & Hmax_in).
  exists (Math_min values), (Math_max values). split; [reflexivity|]. split.
  - intros x Hx. split; [apply Hmin, Hx|apply Hmax, Hx].
  - intros Hv. split; [apply Hmin_in, Hv|apply Hmax_in, Hv].
Qed.

Lemma axis_domain_bounds_witness :
  axis_sample <> []
  /\ getYAxisDomain axis_sample (Key "a") true
     = (VNum (Prim2SF 0%float), VNum (Prim2SF 1800%float))
  /\ exists low top,
       getYAxisDomain axis_sample (Key "a") true
       = (VNum low, VNum (SFmul prec emax top one_point_two))
       /\ (forall x, x ∈ map as_number (axis_values axis_sample (Key "a")) ->
             SFleb low x = true /\ SFleb x top = true).
Proof.
  assert (Hne : axis_sample <> []) by discriminate.
  split; [exact Hne|]. split; [vm_compute; reflexivity|].
  destruct (axis_domain_bounds axis_sample (Key "a") true Hne) as (low & top & Heq & Hall & _).
  exists low, top. split; [exact Heq|exact Hall].
Defined.

(** X12.  On the series of an upload the cleaning inside
    [getYAxisDomain] changes nothing: for the lines of every chart, and
    every region of the selector, the values the domain is computed from
    are the stored fields themselves. *)
Theorem axis_values_are_stored (E : engine) (rows : list object) (region : string)
    (chart : list string) :
  region ∈ region_codes -> chart ∈ charts region ->
  axis_values (buildSeries E rows) (Keys chart)
  = flat_map (fun record => map (get record) chart) (buildSeries E rows)
  /\ forall key, key ∈ chart ->
       axis_values (buildSeries E rows) (Key key)
       = map (fun record => get record key) (buildSeries E rows).
Proof.
  intros Hregion Hchart.
  assert (Hfield : forall record key, record ∈ buildSeries E rows -> key ∈ chart ->
            or_else (cleanNumber (get record key)) (num 0) = get record key).
  { intros record key Hrec Hkey.
    destruct (series_numeric E rows record key Hrec
                (chart_keys_numeric region chart key Hregion Hchart Hkey))
      as (n & Hn & Hclean).
    unfold get. rewrite Hn. apply clean_again, Hclean. }
  revert Hfield. generalize (buildSeries E rows) as series.
  intros series Hfield. split.
  - unfold axis_values. induction series as [|record series IH]; [reflexivity|].
    cbn [flat_map]. f_equal.
    + apply map_ext_in. intros key Hkey. apply Hfield;
        [apply list_elem_of_here|apply list_elem_of_In, Hkey].
    + apply IH. intros r k Hr Hk. apply Hfield; [apply elem_of_cons; right; exact Hr|exact Hk].
  - intros key Hkey. unfold axis_values.
    induction series as [|record series IH]; [reflexivity|].
    cbn [flat_map map app]. f_equal.
    + apply Hfield; [apply list_elem_of_here|exact Hkey].
    + apply IH. intros r k Hr Hk. apply Hfield; [apply elem_of_cons; right; exact Hr|exact Hk].
Qed.

Lemma axis_values_are_stored_witness :
  "KR" ∈ region_codes /\ traffic_chart "KR" ∈ charts "KR"
  /\ axis_values (buildSeries sample_engine [february_row; january_row])
       (Keys (traffic_chart "KR"))
     = flat_map (fun record => map (get record) (traffic_chart "KR"))
         (buildSeries sample_engine [february_row; january_row]).
Proof.
  assert (Hkr : "KR" ∈ region_codes) by column_in_list.
  assert (Hchart : traffic_chart "KR" ∈ charts "KR") by apply list_elem_of_here.
  split; [exact Hkr|]. split; [exact Hchart|].
  apply (axis_values_are_stored sample_engine _ "KR" _ Hkr Hchart).
Defined.

(** ** The series, again *)

Section LastFacts.
Context {A : Type} (key : A -> option Z).

Lemma last_elem_of (l : list A) z : last l = Some z -> z ∈ l.
Proof.
  induction l as [|x l IH]; [discriminate|].
  destruct l as [|y l]; [intros [= ->]; apply list_elem_of_here|].
  intros H. apply elem_of_cons. right. apply IH, H.
Qed.

(** In a list sorted by a key that every element has, the first element
    has the least key and the last the greatest. *)
Lemma Sorted_extremes (l : list A) first z :
  Forall (fun a => is_Some (key a)) l ->
  Sorted (fun a b => forall ka kb, key a = Some ka -> key b = Some kb -> ka <= kb) l ->
  l !! 0%nat = Some first -> last l = Some z ->
  forall a ka kf kz, a ∈ l -> key a = Some ka -> key first = Some kf -> key z = Some kz ->
                     kf <= ka <= kz.
Proof.
  intros Hvalid Hsorted Hfirst Hlast a ka kf kz Ha Hka Hkf Hkz. split.
  - destruct l as [|x l]; [discriminate|]. injection Hfirst as ->.
    apply elem_of_cons in Ha as [->|Ha]; [rewrite Hka in Hkf; injection Hkf as ->; lia|].
    pose proof (Sorted_head_le key first l Hvalid Hsorted) as Hle.
    rewrite Forall_forall in Hle. exact (Hle a Ha kf ka Hkf Hka).
  - clear Hfirst Hkf. revert a ka Ha Hka.
    induction l as [|x l IH]; intros a ka Ha Hka; [discriminate|].
    destruct l as [|y l].
    + injection Hlast as ->. apply elem_of_cons in Ha as [->|Ha];
        [rewrite Hka in Hkz; injection Hkz as ->; lia|apply elem_of_nil in Ha; contradiction].
    + pose proof (Sorted_head_le key x (y :: l) Hvalid Hsorted) as Hle.
      apply Forall_cons in Hvalid as [_ Hvalid]. apply Sorted_inv in Hsorted as [Hsorted _].
      apply elem_of_cons in Ha as [->|Ha]; [|exact (IH Hvalid Hsorted Hlast a ka Ha Hka)].
      rewrite Forall_forall in Hle. exact (Hle z (last_elem_of (y :: l) z Hlast) ka kz Hka Hkz).
Qed.

End LastFacts.

(** X13.  The sort of [processData] is determined by the rows: when
    every record has a valid date, any arrangement of the mapped rows
    that is in date order and keeps the rows of each date in their order
    is the stored series.  The result of [Array.prototype.sort] is then
    the same in every engine that sorts stably. *)
Theorem series_is_the_stable_sort (E : engine) (rows : list object) (arranged : list object) :
  Forall (fun record => is_Some (date_time E record)) (map (processRow E) rows) ->
  arranged ≡ₚ map (processRow E) rows ->
  Sorted (fun a b => forall ta tb, date_time E a = Some ta -> date_time E b = Some tb ->
                                   ta <= tb) arranged ->
  (forall t, dated E t arranged = dated E t (map (processRow E) rows)) ->
  arranged = buildSeries E rows.
Proof.
  intros Hvalid Hperm Hsorted Hstable.
  exact (Array_sort_unique (date_time E) _ arranged Hvalid Hperm Hsorted Hstable).
Qed.

Lemma series_is_the_stable_sort_witness :
  [processRow sample_engine january_row; processRow sample_engine february_row]
  = buildSeries sample_engine [february_row; january_row].
Proof.
  assert (Hjan : date_time sample_engine (processRow sample_engine january_row)
                 = Some 1705276800000) by (vm_compute; reflexivity).
  assert (Hfeb : date_time sample_engine (processRow sample_engine february_row)
                 = Some 1706745600000) by (vm_compute; reflexivity).
  apply (series_is_the_stable_sort sample_engine [february_row; january_row]).
  - cbn [map]. repeat constructor; [rewrite Hfeb|rewrite Hjan]; eexists; reflexivity.
  - apply perm_swap.
  - repeat constructor. intros ta tb. rewrite Hjan, Hfeb. intros [= <-] [= <-]. lia.
  - intros t. unfold dated. cbn [map]. rewrite !filter_cons, !filter_nil, Hjan, Hfeb.
    repeat case_decide; try reflexivity; congruence.
Defined.

(** X14.  The rows the summary names as the start and the end of the
    date range are the earliest and the latest record: when every record
    has a valid date, no record of the series is dated before the first
    or after the last. *)
Theorem summary_rows_are_extremes (E : engine) (rows : list object) :
  rows <> [] ->
  Forall (fun record => is_Some (date_time E record)) (map (processRow E) rows) ->
  exists firstRow lastRow,
    buildSeries E rows !! 0%nat = Some firstRow
    /\ last (buildSeries E rows) = Some lastRow
    /\ forall record t t0 t1,
         record ∈ buildSeries E rows ->
         date_time E record = Some t ->
         date_time E firstRow = Some t0 -> date_time E lastRow = Some t1 ->
         t0 <= t <= t1.
Proof.
  intros Hne Hvalid.
  destruct (buildSeries_nonempty E rows Hne) as (firstRow & lastRow & Hfirst & Hlast).
  exists firstRow, lastRow. split; [exact Hfirst|]. split; [exact Hlast|].
  intros record t t0 t1 Hrec Ht Ht0 Ht1.
  assert (Hvalid' : Forall (fun record => is_Some (date_time E record)) (buildSeries E rows)).
  { rewrite (buildSeries_Permutation E rows). exact Hvalid. }
  exact (Sorted_extremes (date_time E) _ firstRow lastRow Hvalid'
           (Sorted_Array_sort (date_time E) _) Hfirst Hlast record t t0 t1 Hrec Ht Ht0 Ht1).
Qed.

Lemma summary_rows_are_extremes_witness :
  exists firstRow lastRow,
    buildSeries sample_engine [february_row; january_row] !! 0%nat = Some firstRow
    /\ last (buildSeries sample_engine [february_row; january_row]) = Some lastRow
    /\ forall record t t0 t1,
         record ∈ buildSeries sample_engine [february_row; january_row] ->
         date_time sample_engine record = Some t ->
         date_time sample_engine firstRow = Some t0 ->
         date_time sample_engine lastRow = Some t1 ->
         t0 <= t <= t1.
Proof.
  assert (Hjan : date_time sample_engine (processRow sample_engine january_row)
                 = Some 1705276800000) by (vm_compute; reflexivity).
  assert (Hfeb : date_time sample_engine (processRow sample_engine february_row)
                 = Some 1706745600000) by (vm_compute; reflexivity).
  apply (summary_rows_are_extremes sample_engine [february_row; january_row]).
  - discriminate.
  - cbn [map]. repeat constructor; [rewrite Hfeb|rewrite Hjan]; eexists; reflexivity.
Defined.


(** ** The older component beside the newer one *)

Section LegacyFacts.
Context (E : engine).

Lemma legacy_cleanNumber v : Legacy.cleanNumber v = cleanNumber v.
Proof.
  destruct v as [| |b|x|s]; try reflexivity.
  unfold Legacy.cleanNumber, cleanNumber.
  rewrite !cleanNumber_with_text by apply strip_won_dash. reflexivity.
Qed.

(** The columns the older row mapper reads with [cleanNumber]. *)
Lemma legacy_processRow_numeric region row k :
  k ∈ (core_columns ++ [ "GA " +:+ region +:+ " Click"; "X " +:+ region +:+ " Click" ])%list ->
  Legacy.processRow region row !! k = Some (Legacy.cleanNumber (get row k)).
Proof.
  intros H. unfold core_columns in H. cbn [app] in H.
  each_key H; unfold Legacy.processRow, assign;
    repeat (rewrite lookup_insert_ne by discriminate); apply lookup_insert_eq.
Qed.

Lemma legacy_processRow_Date region row :
  Legacy.processRow region row !! "Date" = Some (get row "Date").
Proof.
  unfold Legacy.processRow, assign.
  repeat (rewrite lookup_insert_ne by discriminate). apply lookup_insert_eq.
Qed.

Lemma legacy_columns_numeric region k :
  region ∈ region_codes ->
  k ∈ (core_columns ++ [ "GA " +:+ region +:+ " Click"; "X " +:+ region +:+ " Click" ])%list ->
  k ∈ numeric_columns.
Proof.
  intros Hr Hk. unfold region_codes in Hr. unfold core_columns in Hk. cbn [app] in Hk.
  each_key Hr; each_key Hk; column_in_list.
Qed.

End LegacyFacts.

(** X15.  On the columns the older row mapper writes with [cleanNumber]
    (the eleven core metrics and the two click columns of the selected
    region) its record holds the same number as the record of the newer
    mapper, for every raw row. *)
Theorem legacy_record_agrees (E : engine) (region : string) (row : object) (k : string) :
  region ∈ region_codes ->
  k ∈ (core_columns ++ [ "GA " +:+ region +:+ " Click"; "X " +:+ region +:+ " Click" ])%list ->
  Legacy.processRow region row !! k = processRow E row !! k
  /\ exists n, processRow E row !! k = Some (VNum n) /\ is_nan n = false.
Proof.
  intros Hregion Hk.
  rewrite (legacy_processRow_numeric region row k Hk), legacy_cleanNumber.
  rewrite (processRow_numeric E row k (legacy_columns_numeric region k Hregion Hk)).
  split; [reflexivity|].
  destruct (cleanNumber_with_clean won_dash_damaged (get row k)) as (n & Hn & Hclean).
  exists n. split; [f_equal; exact Hn|apply clean_not_nan, Hclean].
Qed.

Lemma legacy_record_agrees_witness :
  "KR" ∈ region_codes
  /\ Legacy.processRow "KR" february_row !! "GA KR Click"
     = processRow sample_engine february_row !! "GA KR Click"
  /\ processRow sample_engine february_row !! "GA KR Click" = Some (VNum (Prim2SF 50%float)).
Proof.
  assert (Hkr : "KR" ∈ region_codes) by column_in_list.
  split; [exact Hkr|].
  destruct (legacy_record_agrees sample_engine "KR" february_row "GA KR Click" Hkr)
    as [Heq _]; [column_in_list|].
  split; [exact Heq|].
  rewrite (processRow_numeric sample_engine february_row) by column_in_list.
  vm_compute. reflexivity.
Defined.

(** X16.  The older component stores the rows of the sheet as they come:
    record [i] of the series is made from row [i], and its date is the
    cell of the row, neither sorted nor rewritten; the newer component
    rewrites the date with [formatDate]. *)
Theorem legacy_series_in_sheet_order (E : engine) (name sheet : string) (rows : list object)
    (st st' : state) :
  rows <> [] ->
  Legacy.upload_file E (File name (Sheet sheet rows)) st = Ok st' ->
  length (data st') = length rows
  /\ forall (i : nat) row,
       rows !! i = Some row ->
       exists record,
         data st' !! i = Some record
         /\ record !! "Date" = Some (get row "Date")
         /\ processRow E row !! "Date" = Some (formatDate E (get row "Date")).
Proof.
  intros Hne Hup.
  destruct (legacy_upload_sheet E name sheet rows st Hne) as [text Hok].
  rewrite Hok in Hup. injection Hup as <-. cbn [data]. split; [apply length_map|].
  intros i row Hrow. exists (Legacy.processRow (selectedRegion st) row).
  split; [|split].
  - change (map (Legacy.processRow (selectedRegion st)) rows)
      with (Legacy.processRow (selectedRegion st) <$> rows).
    rewrite list_lookup_fmap, Hrow. reflexivity.
  - apply legacy_processRow_Date.
  - apply processRow_Date.
Qed.

Lemma legacy_series_in_sheet_order_witness :
  exists st',
    Legacy.upload_file sample_engine
      (File "metrics.xlsx" (Sheet "Sheet1" [february_row; january_row])) initial_state = Ok st'
    /\ length (data st') = 2%nat
    /\ exists record, data st' !! 0%nat = Some record
                      /\ record !! "Date" = Some (VStr "2024-02-01").
Proof.
  assert (Hne : [february_row; january_row] <> []) by discriminate.
  destruct (legacy_upload_sheet sample_engine "metrics.xlsx" "Sheet1"
              [february_row; january_row] initial_state Hne) as [text Hok].
  eexists. split; [exact Hok|].
  destruct (legacy_series_in_sheet_order sample_engine _ _ _ _ _ Hne Hok) as [Hlen Hrows].
  split; [exact Hlen|].
  destruct (Hrows 0%nat february_row eq_refl) as (record & Hrec & Hdate & _).
  exists record. split; [exact Hrec|exact Hdate].
Defined.

(** X17.  On a numeric field of a stored record the two versions of
    [formatNumber] write the same text, the one [Intl.NumberFormat]
    gives for the field: the guard against [undefined] and [null] of the
    newer version and the [|| 0] of the older never apply. *)
Theorem formatNumber_on_stored_fields (E : engine) (rows : list object) (record : object)
    (key : string) :
  record ∈ buildSeries E rows -> key ∈ numeric_columns ->
  formatNumber E (get record key) = Intl_format E (get record key)
  /\ Legacy.formatNumber E (get record key) = Intl_format E (get record key).
Proof.
  intros Hrec Hkey.
  destruct (series_numeric E rows record key Hrec Hkey) as (n & Hn & Hclean).
  assert (Hget : get record key = VNum n) by (unfold get; rewrite Hn; reflexivity).
  rewrite Hget. split; [reflexivity|].
  unfold Legacy.formatNumber.
  destruct (cleanNumber_with_of_clean won_dash_damaged n Hclean) as [_ ->]. reflexivity.
Qed.

Lemma formatNumber_on_stored_fields_witness :
  processRow sample_engine january_row ∈ buildSeries sample_engine [february_row; january_row]
  /\ formatNumber sample_engine (get (processRow sample_engine january_row) "Steam Total Traffic")
     = Intl_format sample_engine (get (processRow sample_engine january_row) "Steam Total Traffic").
Proof.
  assert (Hrec : processRow sample_engine january_row
                 ∈ buildSeries sample_engine [february_row; january_row]).
  { rewrite scenario_series. apply list_elem_of_here. }
  split; [exact Hrec|].
  apply (formatNumber_on_stored_fields sample_engine _ _ "Steam Total Traffic" Hrec).
  column_in_list.
Defined.

(** X18.  The chart section and the upload prompt are never shown
    together, and when neither is shown the loading banner is: the
    component never renders an empty page below its header. *)
Theorem view_is_never_empty (st : state) :
  chart_section (main_view st) && upload_prompt (main_view st) = false
  /\ chart_section (main_view st) || upload_prompt (main_view st)
     || loading_banner (main_view st) = true
  /\ (upload_prompt (main_view initial_state) = true
      /\ error_banner (main_view initial_state) = false).
Proof.
  unfold main_view. cbn [chart_section upload_prompt loading_banner].
  destruct (data st) as [|record series]; cbn [length Nat.ltb Nat.leb Nat.eqb andb orb].
  - destruct (isLoading st); repeat split; reflexivity.
  - repeat split; reflexivity.
Qed.
